(** * PhishGuard: the behavioural-telemetry pipeline

    A shallow embedding of [src/server.ts] (the WebSocket message handler
    with its risk scorer and session map) and of [src/useBehaviorMonitor.ts]
    (the React hook that samples keystroke cadence and pointer jitter),
    followed by the properties of the two.

    JavaScript numbers are IEEE 754 binary64 values; they are modelled by
    Rocq's primitive [float], whose operations are the same binary64
    operations. *)

From Stdlib Require Import List String Ascii Bool Arith Lia ZArith Permutation.
From Stdlib Require Import Floats Uint63.
Import ListNotations.

Set Warnings "-inexact-float,-register-all".
Local Open Scope string_scope.

(* ================================================================== *)
(** * JavaScript values and the language operations the code relies on *)
(* ================================================================== *)

Module JS.

Definition number := float.

(** The values a handler can meet: whatever [JSON.parse] builds, and
    [undefined], which is what reading an absent property gives.  An object
    is the list of its own properties; a lookup takes the first entry of a
    name. *)
Inductive JSValue :=
| JUndefined
| JNull
| JBool (b : bool)
| JNum (n : number)
| JStr (s : string)
| JArr (elems : list JSValue)
| JObj (props : list (string * JSValue)).

Inductive Exn := SyntaxError | TypeError.

(** An evaluation either completes with a value or throws. *)
Inductive Completion (A : Type) :=
| Normal (a : A)
| Throw (e : Exn).
Arguments Normal {A} a.
Arguments Throw {A} e.

Definition bindC {A B} (c : Completion A) (k : A -> Completion B) : Completion B :=
  match c with
  | Normal a => k a
  | Throw e => Throw e
  end.

Declare Scope completion_scope.
Delimit Scope completion_scope with completion.
Notation "x <- c ;; k" := (bindC c (fun x => k))
  (at level 61, c at next level, right associativity) : completion_scope.

Fixpoint own_property (props : list (string * JSValue)) (key : string) : option JSValue :=
  match props with
  | [] => None
  | (k, v) :: rest => if String.eqb k key then Some v else own_property rest key
  end.

(** [v.key] for the property names the handler reads ([type], [payload],
    [typingSpeed], [mouseJitter], [sessionToken], [token]); no built-in
    prototype defines any of them, so only an object's own properties
    count.  Reading a property of [null] or [undefined] throws. *)
Definition Get (v : JSValue) (key : string) : Completion JSValue :=
  match v with
  | JUndefined | JNull => Throw TypeError
  | JObj props =>
      match own_property props key with
      | Some x => Normal x
      | None => Normal JUndefined
      end
  | _ => Normal JUndefined
  end.

(** [v === "literal"]. *)
Definition strict_eq_string (v : JSValue) (lit : string) : bool :=
  match v with
  | JStr s => String.eqb s lit
  | _ => false
  end.

Definition has_own (props : list (string * JSValue)) (key : string) : bool :=
  match own_property props key with
  | Some _ => true
  | None => false
  end.

Section Engine.

(** The two string conversions of the language (ECMA-262 StringToNumber
    and Number::toString) belong to the engine; the model is parametric in
    them. *)
Variable StringToNumber : string -> number.
Variable NumberToString : number -> string.

(** [ToString].  An array is joined with commas ([null] and [undefined]
    elements count as empty).  A parsed object holds no function, so an own
    [toString] property hides [Object.prototype.toString] with something
    that cannot be called, and the inherited [valueOf] returns the object
    itself: the conversion throws.  Without an own [toString] the result is
    the fixed tag. *)
Fixpoint ToString (v : JSValue) : Completion string :=
  match v with
  | JUndefined => Normal "undefined"
  | JNull => Normal "null"
  | JBool b => Normal (if b then "true" else "false")
  | JNum n => Normal (NumberToString n)
  | JStr s => Normal s
  | JArr elems =>
      (fix join (l : list JSValue) : Completion string :=
         match l with
         | [] => Normal ""
         | x :: rest =>
             bindC (match x with
                    | JUndefined | JNull => Normal ""
                    | _ => ToString x
                    end)
                   (fun s =>
                      match rest with
                      | [] => Normal s
                      | _ => bindC (join rest) (fun r => Normal (s ++ "," ++ r))
                      end)
         end) elems
  | JObj props =>
      if has_own props "toString" then Throw TypeError
      else Normal "[object Object]"
  end.

(** [ToNumber].  For arrays and parsed objects [ToPrimitive] with hint
    number ends in the same [toString] call as [ToString]. *)
Definition ToNumber (v : JSValue) : Completion number :=
  match v with
  | JUndefined => Normal nan
  | JNull => Normal 0%float
  | JBool b => Normal (if b then 1%float else 0%float)
  | JNum n => Normal n
  | JStr s => Normal (StringToNumber s)
  | JArr _ | JObj _ => bindC (ToString v) (fun s => Normal (StringToNumber s))
  end.

(** [v > c] for a number literal [c]: [false] when [v] converts to NaN. *)
Definition gt (v : JSValue) (c : number) : Completion bool :=
  bindC (ToNumber v) (fun n => Normal (c <? n)%float).

End Engine.

(** [SameValueZero], the key comparison of [Map].  Two numbers are the same
    key when they are equal or both NaN.  Objects and arrays are compared by
    identity, and every message is parsed into fresh objects, so such a key
    is never the same as one stored earlier. *)
Definition SameValueZero (a b : JSValue) : bool :=
  match a, b with
  | JUndefined, JUndefined => true
  | JNull, JNull => true
  | JBool x, JBool y => Bool.eqb x y
  | JNum x, JNum y => (x =? y)%float || (is_nan x && is_nan y)
  | JStr s, JStr t => String.eqb s t
  | _, _ => false
  end.

End JS.
Import JS.

(* ================================================================== *)
(** * src/server.ts: the message handler                               *)
(* ================================================================== *)

Module Server.

Record RiskUpdate := { riskScore : number; reason : string }.

(** What [ws.send] is given: the object that is stringified. *)
Inductive Outbound :=
| RISK_UPDATE (payload : RiskUpdate).

Record SessionRecord := { startTime : number; ip : string; userAgent : string }.

(** [sessions], a [Map]: entries in insertion order, keys pairwise
    different under [SameValueZero]. *)
Definition Sessions := list (JSValue * SessionRecord).

(** [sessions.set(key, value)]: an existing key keeps its place and takes
    the new value; a new key is appended ([-0] is stored as [+0]). *)
Fixpoint Map_set (m : Sessions) (key : JSValue) (value : SessionRecord) : Sessions :=
  match m with
  | [] =>
      [(match key with
        | JNum n => if (n =? 0)%float then JNum 0%float else key
        | _ => key
        end, value)]
  | (k, v) :: rest =>
      if SameValueZero k key then (k, value) :: rest
      else (k, v) :: Map_set rest key value
  end.

Fixpoint Map_get (m : Sessions) (key : JSValue) : option SessionRecord :=
  match m with
  | [] => None
  | (k, v) :: rest => if SameValueZero k key then Some v else Map_get rest key
  end.

(** The frame handed to the handler, by what [JSON.parse] makes of its
    text. *)
Inductive Message :=
| NotJSON
| JSON (data : JSValue).

Definition JSON_parse (message : Message) : Completion JSValue :=
  match message with
  | NotJSON => Throw SyntaxError
  | JSON data => Normal data
  end.

(** The state a handler run works on: the session map and what has been
    sent on the socket, oldest first. *)
Record World := { sessions : Sessions; sent : list Outbound }.

(** Handler code: a state transformer that may throw.  Nothing catches, so
    a throw ends the run. *)
Definition Handler (A : Type) := World -> Completion (A * World).

Definition ret {A} (a : A) : Handler A := fun w => Normal (a, w).

Definition bind {A B} (h : Handler A) (k : A -> Handler B) : Handler B :=
  fun w =>
    match h w with
    | Normal (a, w') => k a w'
    | Throw e => Throw e
    end.

Definition eval {A} (c : Completion A) : Handler A :=
  fun w =>
    match c with
    | Normal a => Normal (a, w)
    | Throw e => Throw e
    end.

Definition ws_send (m : Outbound) : Handler unit :=
  fun w => Normal (tt, {| sessions := sessions w; sent := sent w ++ [m] |}).

Definition sessions_set (key : JSValue) (value : SessionRecord) : Handler unit :=
  fun w => Normal (tt, {| sessions := Map_set (sessions w) key value; sent := sent w |}).

Declare Scope handler_scope.
Delimit Scope handler_scope with handler.
Notation "x <- h ;; k" := (bind h (fun x => k))
  (at level 61, h at next level, right associativity) : handler_scope.
Notation "h ;;; k" := (bind h (fun _ => k))
  (at level 61, right associativity) : handler_scope.
Local Open Scope handler_scope.

Section Engine.

Variable StringToNumber : string -> number.
Variable NumberToString : number -> string.

Notation "a '>js' c" := (gt StringToNumber NumberToString a c) (at level 60).

(** Lines 25-33: the update computed from a report's payload. *)
Definition score (payload : JSValue) : Completion RiskUpdate :=
  (typingSpeed <- Get payload "typingSpeed" ;;
   mouseJitter <- Get payload "mouseJitter" ;;
   sessionToken <- Get payload "sessionToken" ;;
   let riskScore := 0%float in
   fast <- typingSpeed >js 500%float ;;
   let riskScore := if fast then (riskScore + 30)%float else riskScore in
   erratic <- mouseJitter >js 0.8%float ;;
   let riskScore := if erratic then (riskScore + 40)%float else riskScore in
   Normal {| riskScore := riskScore;
             reason := if (50 <? riskScore)%float
                       then "Anomalous interaction detected" else "Normal" |})%completion.

(** Lines 20-44: [ws.on("message", ...)]; [now] is what [Date.now()]
    returns during the run. *)
Definition on_message (now : number) (message : Message) : Handler unit :=
  data <- eval (JSON_parse message) ;;
  type <- eval (Get data "type") ;;
  (if strict_eq_string type "BEHAVIOR_REPORT" then
     payload <- eval (Get data "payload") ;;
     update <- eval (score payload) ;;
     ws_send (RISK_UPDATE update)
   else ret tt) ;;;
  type <- eval (Get data "type") ;;
  if strict_eq_string type "SESSION_INIT" then
    payload <- eval (Get data "payload") ;;
    token <- eval (Get payload "token") ;;
    sessions_set token {| startTime := now; ip := "192.168.1.1"; userAgent := "Mozilla/5.0..." |}
  else ret tt.

(** The frames of a server's life, each with the clock reading of its
    run.  An exception leaves the handler uncaught, which ends the
    process: no later frame is served. *)
Fixpoint serve (w : World) (frames : list (number * Message)) : Completion World :=
  match frames with
  | [] => Normal w
  | (now, message) :: rest =>
      match on_message now message w with
      | Normal (_, w') => serve w' rest
      | Throw e => Throw e
      end
  end.

End Engine.

(** The server as [startServer] leaves it: no session, nothing sent. *)
Definition start : World := {| sessions := []; sent := [] |}.

(** What a run sent, when it did not throw. *)
Definition replies {A} (w : World) (h : Handler A) : Completion (list Outbound) :=
  match h {| sessions := sessions w; sent := [] |} with
  | Normal (_, w') => Normal (sent w')
  | Throw e => Throw e
  end.

End Server.

(* ================================================================== *)
(** * src/useBehaviorMonitor.ts: the sampling hook                     *)
(* ================================================================== *)

Module Monitor.

Local Open Scope float_scope.

Record BehaviorData := { typingSpeed : number; mouseJitter : number; timestamp : number }.

Record Point := { x : number; y : number }.

(** An array is a list: [push] appends at the end, [shift] drops the
    first element, [length] (far below 2^53) is read as a number. *)
Definition push {A} (l : list A) (a : A) : list A := l ++ [a].

Definition shift {A} (l : list A) : list A := tl l.

Definition length_number {A} (l : list A) : number :=
  of_uint63 (Uint63.of_Z (Z.of_nat (List.length l))).

(** [Math.sqrt] is taken as the binary64 square root and [Math.pow(d, 2)]
    as the binary64 product of [d] with itself. *)
Definition Math_sqrt (d : number) : number := PrimFloat.sqrt d.

Definition Math_pow_2 (d : number) : number := d * d.

Definition Math_abs (d : number) : number := PrimFloat.abs d.

(** The hook's state between events: the [data] state, the three refs, the
    [isActive] argument of the last render (the effect's dependency) and
    whether the two listeners are on [window]. *)
Record Hook := {
  data : BehaviorData;
  lastKeyTime : number;
  keyIntervals : list number;
  mousePositions : list Point;
  isActive : bool;
  listening : bool
}.

(** Lines 18-31; [now] is the value of [Date.now()]. *)
Definition handleKeyDown (now : number) (h : Hook) : Hook :=
  let keyIntervals' :=
    if negb (lastKeyTime h =? 0) then
      let pushed := push (keyIntervals h) (now - lastKeyTime h) in
      if (10 <? List.length pushed)%nat then shift pushed else pushed
    else keyIntervals h in
  let avgSpeed :=
    if (0 <? List.length keyIntervals')%nat
    then fold_left (fun a b => a + b) keyIntervals' 0 / length_number keyIntervals'
    else 0 in
  {| data := {| typingSpeed := avgSpeed;
                mouseJitter := mouseJitter (data h);
                timestamp := now |};
     lastKeyTime := now;
     keyIntervals := keyIntervals';
     mousePositions := mousePositions h;
     isActive := isActive h;
     listening := listening h |}.

(** Lines 41-47: the loop over [i = 1 .. length - 1]. *)
Definition deltas_of (positions : list Point) : list number :=
  let origin := {| x := 0; y := 0 |} in
  fold_left
    (fun deltas i =>
       let d := Math_sqrt
                  (Math_pow_2 (x (nth i positions origin) - x (nth (i - 1)%nat positions origin)) +
                   Math_pow_2 (y (nth i positions origin) - y (nth (i - 1)%nat positions origin))) in
       push deltas d)
    (seq 1 (List.length positions - 1)%nat) [].

(** Lines 33-53; [now] is the value of [Date.now()] on line 52. *)
Definition handleMouseMove (clientX clientY now : number) (h : Hook) : Hook :=
  let pushed := push (mousePositions h) {| x := clientX; y := clientY |} in
  let mousePositions' := if (20 <? List.length pushed)%nat then shift pushed else pushed in
  let jitter :=
    if (2 <? List.length mousePositions')%nat then
      let deltas := deltas_of mousePositions' in
      let avg := fold_left (fun a b => a + b) deltas 0 / length_number deltas in
      fold_left (fun a b => a + Math_abs (b - avg)) deltas 0 / length_number deltas
    else 0 in
  {| data := {| typingSpeed := typingSpeed (data h);
                mouseJitter := jitter;
                timestamp := now |};
     lastKeyTime := lastKeyTime h;
     keyIntervals := keyIntervals h;
     mousePositions := mousePositions';
     isActive := isActive h;
     listening := listening h |}.

Definition set_listening (b : bool) (h : Hook) : Hook :=
  {| data := data h;
     lastKeyTime := lastKeyTime h;
     keyIntervals := keyIntervals h;
     mousePositions := mousePositions h;
     isActive := isActive h;
     listening := b |}.

(** Lines 15-62, the effect body run with the rendered [isActive]: nothing
    when inactive, else the two listeners are added. *)
Definition effect (active : bool) (h : Hook) : Hook :=
  if negb active then h else set_listening true h.

(** Lines 58-61, the function the effect returns when it added listeners. *)
Definition cleanup (h : Hook) : Hook := set_listening false h.

(** The first render: [useState] and the three [useRef] take their
    initial values, then the effect runs. *)
Definition mount (active : bool) (now : number) : Hook :=
  effect active
    {| data := {| typingSpeed := 0; mouseJitter := 0; timestamp := now |};
       lastKeyTime := 0;
       keyIntervals := [];
       mousePositions := [];
       isActive := active;
       listening := false |}.

(** A later render with argument [active]: the effect depends on
    [[isActive]] only, so it re-runs (after the cleanup of the previous
    run, when that returned one) exactly when the argument changed. *)
Definition render (active : bool) (h : Hook) : Hook :=
  if Bool.eqb active (isActive h) then h
  else
    let h1 := if isActive h then cleanup h else h in
    effect active
      {| data := data h1;
         lastKeyTime := lastKeyTime h1;
         keyIntervals := keyIntervals h1;
         mousePositions := mousePositions h1;
         isActive := active;
         listening := listening h1 |}.

Inductive Event :=
| Render (active : bool)
| KeyDown (now : number)
| MouseMove (clientX clientY now : number).

(** One event; a DOM event reaches a handler only while it is registered. *)
Definition step (h : Hook) (e : Event) : Hook :=
  match e with
  | Render active => render active h
  | KeyDown now => if listening h then handleKeyDown now h else h
  | MouseMove clientX clientY now =>
      if listening h then handleMouseMove clientX clientY now h else h
  end.

Definition run (h : Hook) (events : list Event) : Hook := fold_left step events h.

End Monitor.

(* ================================================================== *)
(** * Properties of the message handler                                *)
(* ================================================================== *)

Module ServerProperties.
Import Server.
Local Open Scope float_scope.

(** The scoring rule in the specification's words: 30 for a typing speed
    above 500, 40 for a jitter above 0.8, and the reason by the sum. *)
Definition risk_rule (fast erratic : bool) : RiskUpdate :=
  let riskScore := ((if fast then 30 else 0) + (if erratic then 40 else 0))%float in
  {| riskScore := riskScore;
     reason := if (50 <? riskScore)%float
               then "Anomalous interaction detected" else "Normal" |}.

(** The report the client sends (App.tsx, lines 87-94), as the server
    parses it. *)
Definition BehaviorReport (typingSpeed mouseJitter : number) (sessionToken : string) : Message :=
  JSON (JObj [("type", JStr "BEHAVIOR_REPORT");
              ("payload", JObj [("typingSpeed", JNum typingSpeed);
                                ("mouseJitter", JNum mouseJitter);
                                ("sessionToken", JStr sessionToken)])]).

(** The session-init message of the wire format,
    [{type: "SESSION_INIT", payload: {token}}], as the server parses it. *)
Definition SessionInit (token : string) : Message :=
  JSON (JObj [("type", JStr "SESSION_INIT"); ("payload", JObj [("token", JStr token)])]).

(** The record line 38 stores at clock reading [now]. *)
Definition record_at (now : number) : SessionRecord :=
  {| startTime := now; ip := "192.168.1.1"; userAgent := "Mozilla/5.0..." |}.

(** A run of session inits, each with its clock reading. *)
Definition init_frames (inits : list (number * string)) : list (number * Message) :=
  map (fun i => (fst i, SessionInit (snd i))) inits.

(** The number of distinct tokens of a list. *)
Definition distinct (tokens : list string) : nat :=
  List.length (nodup string_dec tokens).

(** The clock reading of the last init that named [token]. *)
Fixpoint last_init (token : string) (inits : list (number * string)) : option number :=
  match inits with
  | [] => None
  | (now, t) :: rest =>
      match last_init token rest with
      | Some later => Some later
      | None => if String.eqb t token then Some now else None
      end
  end.

(** The world after one more message went out. *)
Definition after_send (w : World) (m : Outbound) : World :=
  {| sessions := sessions w; sent := sent w ++ [m] |}.

Section Engine.

Variable StringToNumber : string -> number.
Variable NumberToString : number -> string.

Local Abbreviation score := (score StringToNumber NumberToString).
Local Abbreviation on_message := (on_message StringToNumber NumberToString).
Local Abbreviation gt := (gt StringToNumber NumberToString).

Lemma Get_defined (v : JSValue) (key key' : string) (x : JSValue) :
  Get v key = Normal x -> exists x', Get v key' = Normal x'.
Proof.
  destruct v; simpl; try discriminate; intros _; eauto.
  destruct (own_property props key'); eauto.
Qed.

(** A report is answered with its score and changes nothing else. *)
Lemma on_message_report (now : number) (data payload : JSValue) (w : World) :
  Get data "type" = Normal (JStr "BEHAVIOR_REPORT") ->
  Get data "payload" = Normal payload ->
  on_message now (JSON data) w =
  match score payload with
  | Normal update => Normal (tt, after_send w (RISK_UPDATE update))
  | Throw e => Throw e
  end.
Proof.
  intros Htype Hpayload.
  unfold on_message, bind, eval, JSON_parse.
  rewrite Htype. cbn [strict_eq_string].
  replace ("BEHAVIOR_REPORT" =? "BEHAVIOR_REPORT")%string with true by reflexivity.
  replace ("BEHAVIOR_REPORT" =? "SESSION_INIT")%string with false by reflexivity.
  cbv iota. rewrite Hpayload.
  destruct (score payload); reflexivity.
Qed.

(** The score once the two fields are read: the two comparisons in
    order, then the sum. *)
Lemma score_fields (payload typingSpeed mouseJitter : JSValue) :
  Get payload "typingSpeed" = Normal typingSpeed ->
  Get payload "mouseJitter" = Normal mouseJitter ->
  score payload =
  (fast <- gt typingSpeed 500%float ;;
   erratic <- gt mouseJitter 0.8%float ;;
   Normal (risk_rule fast erratic))%completion.
Proof.
  intros Hts Hmj. unfold Server.score.
  destruct (Get_defined _ _ "sessionToken" _ Hts) as [tok Htok].
  rewrite Hts, Hmj, Htok. cbn [bindC].
  destruct (gt typingSpeed 500%float) as [fast|]; [|reflexivity]. cbn [bindC].
  destruct (gt mouseJitter 0.8%float) as [erratic|]; [|reflexivity]. cbn [bindC].
  destruct fast, erratic; reflexivity.
Qed.

(** The answer to a report whose two comparisons evaluate. *)
Lemma report_answer
    (now : number) (data payload typingSpeed mouseJitter : JSValue)
    (fast erratic : bool) (w : World) :
  Get data "type" = Normal (JStr "BEHAVIOR_REPORT") ->
  Get data "payload" = Normal payload ->
  Get payload "typingSpeed" = Normal typingSpeed ->
  Get payload "mouseJitter" = Normal mouseJitter ->
  gt typingSpeed 500 = Normal fast ->
  gt mouseJitter 0.8 = Normal erratic ->
  on_message now (JSON data) w =
  Normal (tt, after_send w (RISK_UPDATE (risk_rule fast erratic))).
Proof.
  intros Htype Hpayload Hts Hmj Hfast Herratic.
  rewrite (on_message_report now data payload w Htype Hpayload).
  rewrite (score_fields payload typingSpeed mouseJitter Hts Hmj), Hfast, Herratic.
  reflexivity.
Qed.

(** C1.  A report is answered by one RISK_UPDATE whose score starts at 0,
    gains 30 when [typingSpeed > 500] and 40 when [mouseJitter > 0.8], and
    whose reason is "Anomalous interaction detected" when the score exceeds
    50 and "Normal" otherwise; the four sample reports of the specification
    score (30, Normal), (40, Normal), (70, Anomalous interaction detected)
    and (0, Normal). *)
Theorem score_rule :
  (forall (now : number) (data payload typingSpeed mouseJitter : JSValue)
          (fast erratic : bool) (w : World),
      Get data "type" = Normal (JStr "BEHAVIOR_REPORT") ->
      Get data "payload" = Normal payload ->
      Get payload "typingSpeed" = Normal typingSpeed ->
      Get payload "mouseJitter" = Normal mouseJitter ->
      gt typingSpeed 500 = Normal fast ->
      gt mouseJitter 0.8 = Normal erratic ->
      on_message now (JSON data) w =
      Normal (tt, after_send w (RISK_UPDATE (risk_rule fast erratic)))) /\
  (forall (now typingSpeed mouseJitter : number) (token : string) (w : World),
      on_message now (BehaviorReport typingSpeed mouseJitter token) w =
      Normal (tt, after_send w
                    (RISK_UPDATE (risk_rule (500 <? typingSpeed) (0.8 <? mouseJitter))))) /\
  (forall fast erratic : bool,
      riskScore (risk_rule fast erratic) =
      match fast, erratic with
      | false, false => 0
      | true, false => 30
      | false, true => 40
      | true, true => 70
      end) /\
  (forall (now : number) (token : string) (w : World),
      on_message now (BehaviorReport 600 0 token) w =
      Normal (tt, after_send w (RISK_UPDATE {| riskScore := 30; reason := "Normal" |})) /\
      on_message now (BehaviorReport 0 0.9 token) w =
      Normal (tt, after_send w (RISK_UPDATE {| riskScore := 40; reason := "Normal" |})) /\
      on_message now (BehaviorReport 600 0.9 token) w =
      Normal (tt, after_send w (RISK_UPDATE {| riskScore := 70;
                                               reason := "Anomalous interaction detected" |})) /\
      on_message now (BehaviorReport 0 0 token) w =
      Normal (tt, after_send w (RISK_UPDATE {| riskScore := 0; reason := "Normal" |}))).
Proof.
  split; [exact report_answer | split; [|split]].
  - intros now ts mj token w.
    apply (report_answer now _
             (JObj [("typingSpeed", JNum ts); ("mouseJitter", JNum mj);
                    ("sessionToken", JStr token)]) (JNum ts) (JNum mj));
      reflexivity.
  - intros [] []; reflexivity.
  - intros now token w. repeat split; reflexivity.
Qed.

(** C7.  Both thresholds are strict: a typing speed of exactly 500 adds
    no 30 and a jitter of exactly 0.8 adds no 40, whatever the other field
    holds, and the report (500, 0.8) scores (0, Normal). *)
Theorem thresholds_strict :
  (forall (now : number) (data payload mouseJitter : JSValue) (erratic : bool) (w : World),
      Get data "type" = Normal (JStr "BEHAVIOR_REPORT") ->
      Get data "payload" = Normal payload ->
      Get payload "typingSpeed" = Normal (JNum 500) ->
      Get payload "mouseJitter" = Normal mouseJitter ->
      gt mouseJitter 0.8 = Normal erratic ->
      on_message now (JSON data) w =
      Normal (tt, after_send w (RISK_UPDATE (risk_rule false erratic)))) /\
  (forall (now : number) (data payload typingSpeed : JSValue) (fast : bool) (w : World),
      Get data "type" = Normal (JStr "BEHAVIOR_REPORT") ->
      Get data "payload" = Normal payload ->
      Get payload "typingSpeed" = Normal typingSpeed ->
      Get payload "mouseJitter" = Normal (JNum 0.8) ->
      gt typingSpeed 500 = Normal fast ->
      on_message now (JSON data) w =
      Normal (tt, after_send w (RISK_UPDATE (risk_rule fast false)))) /\
  (forall erratic : bool, riskScore (risk_rule false erratic) = if erratic then 40 else 0) /\
  (forall fast : bool, riskScore (risk_rule fast false) = if fast then 30 else 0) /\
  (forall (now : number) (token : string) (w : World),
      on_message now (BehaviorReport 500 0.8 token) w =
      Normal (tt, after_send w (RISK_UPDATE {| riskScore := 0; reason := "Normal" |}))).
Proof.
  split; [|split; [|split; [|split]]].
  - intros now data payload mj erratic w Htype Hpayload Hts Hmj Herratic.
    apply (report_answer now data payload (JNum 500) mj); auto.
  - intros now data payload ts fast w Htype Hpayload Hts Hmj Hfast.
    apply (report_answer now data payload ts (JNum 0.8)); auto.
  - intros []; reflexivity.
  - intros []; reflexivity.
  - intros now token w. reflexivity.
Qed.

(** C9.  A parsed message whose [type] is neither "BEHAVIOR_REPORT" nor
    "SESSION_INIT" is ignored: the run completes, sends nothing and leaves
    the session map as it was. *)
Theorem unknown_type_ignored
    (now : number) (data type : JSValue) (w : World) :
  Get data "type" = Normal type ->
  strict_eq_string type "BEHAVIOR_REPORT" = false ->
  strict_eq_string type "SESSION_INIT" = false ->
  on_message now (JSON data) w = Normal (tt, w).
Proof.
  intros Htype Hreport Hinit.
  unfold Server.on_message, bind, eval, JSON_parse.
  rewrite Htype, Hreport. cbn [ret]. rewrite Hinit. reflexivity.
Qed.

Lemma score_throws (payload : JSValue) (e : Exn) :
  Get payload "typingSpeed" = Throw e -> score payload = Throw e.
Proof.
  intros H. unfold Server.score. rewrite H. reflexivity.
Qed.

(** The score is a function of the two fields read for the comparisons. *)
Lemma score_depends_on_fields (p1 p2 : JSValue) :
  Get p1 "typingSpeed" = Get p2 "typingSpeed" ->
  Get p1 "mouseJitter" = Get p2 "mouseJitter" ->
  score p1 = score p2.
Proof.
  intros Hts Hmj.
  destruct (Get p2 "typingSpeed") as [ts|e] eqn:Hts2.
  - destruct (Get_defined _ _ "mouseJitter" _ Hts2) as [mj Hmj2].
    rewrite Hmj2 in Hmj.
    rewrite (score_fields p1 ts mj Hts Hmj), (score_fields p2 ts mj Hts2 Hmj2).
    reflexivity.
  - rewrite (score_throws p1 e Hts), (score_throws p2 e Hts2). reflexivity.
Qed.

(** C10.  Two reports that agree on [typingSpeed] and [mouseJitter] get
    the same answer, whatever their [sessionToken] fields, the session maps
    and the clock readings are. *)
Theorem answer_ignores_token
    (now1 now2 : number) (data1 data2 payload1 payload2 : JSValue) (w1 w2 : World) :
  Get data1 "type" = Normal (JStr "BEHAVIOR_REPORT") ->
  Get data2 "type" = Normal (JStr "BEHAVIOR_REPORT") ->
  Get data1 "payload" = Normal payload1 ->
  Get data2 "payload" = Normal payload2 ->
  Get payload1 "typingSpeed" = Get payload2 "typingSpeed" ->
  Get payload1 "mouseJitter" = Get payload2 "mouseJitter" ->
  replies w1 (on_message now1 (JSON data1)) = replies w2 (on_message now2 (JSON data2)).
Proof.
  intros Ht1 Ht2 Hp1 Hp2 Hts Hmj. unfold replies.
  rewrite (on_message_report now1 data1 payload1 _ Ht1 Hp1).
  rewrite (on_message_report now2 data2 payload2 _ Ht2 Hp2).
  rewrite (score_depends_on_fields payload1 payload2 Hts Hmj).
  destruct (score payload2); reflexivity.
Qed.

(** Values that are neither arrays nor objects. *)
Definition primitive (v : JSValue) : bool :=
  match v with
  | JArr _ | JObj _ => false
  | _ => true
  end.

(** Comparing an absent field and comparing 0 give the same answer at
    either threshold. *)
Lemma gt_undefined_as_zero :
  gt JUndefined 500 = gt (JNum 0) 500 /\ gt JUndefined 0.8 = gt (JNum 0) 0.8.
Proof.
  split; reflexivity.
Qed.

(** A report that lacks [typingSpeed] (or [mouseJitter]) is answered as
    the report that has 0 there and the same other field. *)
Lemma missing_field_as_zero :
  (forall (now : number) (data data0 payload payload0 : JSValue) (w : World),
      Get data "type" = Normal (JStr "BEHAVIOR_REPORT") ->
      Get data0 "type" = Normal (JStr "BEHAVIOR_REPORT") ->
      Get data "payload" = Normal payload ->
      Get data0 "payload" = Normal payload0 ->
      Get payload "typingSpeed" = Normal JUndefined ->
      Get payload0 "typingSpeed" = Normal (JNum 0) ->
      Get payload0 "mouseJitter" = Get payload "mouseJitter" ->
      on_message now (JSON data) w = on_message now (JSON data0) w) /\
  (forall (now : number) (data data0 payload payload0 : JSValue) (w : World),
      Get data "type" = Normal (JStr "BEHAVIOR_REPORT") ->
      Get data0 "type" = Normal (JStr "BEHAVIOR_REPORT") ->
      Get data "payload" = Normal payload ->
      Get data0 "payload" = Normal payload0 ->
      Get payload "mouseJitter" = Normal JUndefined ->
      Get payload0 "mouseJitter" = Normal (JNum 0) ->
      Get payload0 "typingSpeed" = Get payload "typingSpeed" ->
      on_message now (JSON data) w = on_message now (JSON data0) w).
Proof.
  split.
  - intros now data data0 p p0 w Ht Ht0 Hp Hp0 Hts Hts0 Hmj.
    rewrite (on_message_report now data p w Ht Hp).
    rewrite (on_message_report now data0 p0 w Ht0 Hp0).
    destruct (Get_defined _ _ "mouseJitter" _ Hts) as [mj Hmj1].
    rewrite Hmj1 in Hmj.
    rewrite (score_fields p _ _ Hts Hmj1), (score_fields p0 _ _ Hts0 Hmj).
    rewrite (proj1 gt_undefined_as_zero). reflexivity.
  - intros now data data0 p p0 w Ht Ht0 Hp Hp0 Hmj Hmj0 Hts.
    rewrite (on_message_report now data p w Ht Hp).
    rewrite (on_message_report now data0 p0 w Ht0 Hp0).
    destruct (Get_defined _ _ "typingSpeed" _ Hmj) as [ts Hts1].
    rewrite Hts1 in Hts.
    rewrite (score_fields p _ _ Hts1 Hmj), (score_fields p0 _ _ Hts Hmj0).
    destruct (gt ts 500) as [fast|]; [|reflexivity]. cbn [bindC].
    rewrite (proj2 gt_undefined_as_zero). reflexivity.
Qed.

(** Where the handler throws: a frame that is not JSON, [null], a report
    without a payload, and a report with a field that holds an object with
    an own [toString] property. *)
Lemma on_message_throws (now : number) (w : World) :
  on_message now NotJSON w = Throw SyntaxError /\
  on_message now (JSON JNull) w = Throw TypeError /\
  on_message now (JSON (JObj [("type", JStr "BEHAVIOR_REPORT")])) w = Throw TypeError /\
  on_message now
    (JSON (JObj [("type", JStr "BEHAVIOR_REPORT");
                 ("payload", JObj [("typingSpeed", JObj [("toString", JNull)]);
                                   ("mouseJitter", JNum 0)])])) w = Throw TypeError.
Proof.
  repeat split; reflexivity.
Qed.

(** ** The session map *)

Lemma Map_get_set_string (m : Sessions) (a b : string) (v : SessionRecord) :
  Map_get (Map_set m (JStr a) v) (JStr b) =
  if String.eqb a b then Some v else Map_get m (JStr b).
Proof.
  induction m as [|[k v'] rest IH]; simpl.
  - destruct (String.eqb a b); reflexivity.
  - destruct (SameValueZero k (JStr a)) eqn:Hka; simpl.
    + destruct k; simpl in Hka; try discriminate.
      apply String.eqb_eq in Hka. subst s. simpl.
      destruct (String.eqb a b); reflexivity.
    + destruct (SameValueZero k (JStr b)) eqn:Hkb.
      * destruct k; simpl in Hka, Hkb; try discriminate.
        apply String.eqb_eq in Hkb. subst s. rewrite String.eqb_sym, Hka. reflexivity.
      * exact IH.
Qed.

(** [set] grows the map by one entry exactly when the key is new. *)
Lemma Map_set_length (m : Sessions) (key : JSValue) (v : SessionRecord) :
  List.length (Map_set m key v) =
  match Map_get m key with
  | Some _ => List.length m
  | None => S (List.length m)
  end.
Proof.
  induction m as [|[k v'] rest IH]; simpl; [reflexivity|].
  destruct (SameValueZero k key); simpl; [reflexivity|].
  rewrite IH. destruct (Map_get rest key); reflexivity.
Qed.

Lemma Map_set_string_keys (m : Sessions) (tokens : list string) (t : string) (v : SessionRecord) :
  map fst m = map JStr tokens ->
  map fst (Map_set m (JStr t) v) =
  map JStr (if in_dec string_dec t tokens then tokens else tokens ++ [t]).
Proof.
  revert tokens.
  induction m as [|[k v'] rest IH]; intros [|t0 tokens] Hkeys; simpl in Hkeys;
    try discriminate.
  - reflexivity.
  - injection Hkeys as -> Hrest. simpl.
    destruct (String.eqb t0 t) eqn:Ht0.
    + apply String.eqb_eq in Ht0. subst t0. simpl.
      destruct (string_dec t t) as [Heq|Hne]; [|contradiction].
      rewrite Hrest. reflexivity.
    + apply String.eqb_neq in Ht0. simpl.
      rewrite (IH tokens Hrest).
      destruct (string_dec t0 t) as [Heq|Hne]; [contradiction|].
      destruct (in_dec string_dec t tokens); reflexivity.
Qed.

Lemma on_message_init (now : number) (token : string) (w : World) :
  on_message now (SessionInit token) w =
  Normal (tt, {| sessions := Map_set (sessions w) (JStr token) (record_at now);
                 sent := sent w |}).
Proof.
  reflexivity.
Qed.

(** The map after a run of inits. *)
Definition init_all (m : Sessions) (inits : list (number * string)) : Sessions :=
  fold_left (fun m i => Map_set m (JStr (snd i)) (record_at (fst i))) inits m.

Lemma serve_inits (w : World) (inits : list (number * string)) :
  serve StringToNumber NumberToString w (init_frames inits) =
  Normal {| sessions := init_all (sessions w) inits; sent := sent w |}.
Proof.
  revert w. induction inits as [|[now token] rest IH]; intros w.
  - destruct w; reflexivity.
  - change (init_frames ((now, token) :: rest))
      with ((now, SessionInit token) :: init_frames rest).
    cbn [serve]. rewrite on_message_init, IH. reflexivity.
Qed.

Lemma init_all_keys (inits : list (number * string)) (m : Sessions) (tokens : list string) :
  map fst m = map JStr tokens ->
  NoDup tokens ->
  exists tokens',
    map fst (init_all m inits) = map JStr tokens' /\
    NoDup tokens' /\
    forall t, In t tokens' <-> In t tokens \/ In t (map snd inits).
Proof.
  revert m tokens.
  induction inits as [|[now token] rest IH]; intros m tokens Hkeys Hnodup.
  - exists tokens. simpl. intuition.
  - simpl.
    pose proof (Map_set_string_keys m tokens token (record_at now) Hkeys) as Hkeys'.
    destruct (in_dec string_dec token tokens) as [Hin|Hnew].
    + destruct (IH _ _ Hkeys' Hnodup) as (tokens' & Hk & Hn & Hmem).
      exists tokens'. repeat split; auto.
      * intros Ht. apply Hmem in Ht. intuition.
      * intros [Ht|[<-|Ht]]; apply Hmem; auto.
    + assert (Hnodup' : NoDup (tokens ++ [token])).
      { apply NoDup_app; [assumption | repeat constructor; intros [] |].
        intros a Ha [Heq|[]]. subst a. contradiction. }
      destruct (IH _ _ Hkeys' Hnodup') as (tokens' & Hk & Hn & Hmem).
      exists tokens'. repeat split; auto.
      * intros Ht. apply Hmem in Ht. rewrite in_app_iff in Ht. simpl in Ht. intuition.
      * intros Ht. apply Hmem. rewrite in_app_iff. simpl. intuition.
Qed.

Lemma init_all_get (inits : list (number * string)) (m : Sessions) (token : string) :
  Map_get (init_all m inits) (JStr token) =
  match last_init token inits with
  | Some now => Some (record_at now)
  | None => Map_get m (JStr token)
  end.
Proof.
  revert m. induction inits as [|[now t] rest IH]; intros m; simpl; [reflexivity|].
  rewrite IH. destruct (last_init token rest); [reflexivity|].
  rewrite Map_get_set_string. destruct (String.eqb t token); reflexivity.
Qed.

(** C8.  A run of session inits on a fresh server never throws and sends
    nothing; afterwards the map has one entry per distinct token, and the
    entry of a token is the record of the last init that named it.  On any
    map, a second init with the same token replaces the record and leaves
    the size as the first init left it. *)
Theorem session_init_last_writer_wins :
  (forall inits : list (number * string),
      exists m,
        serve StringToNumber NumberToString start (init_frames inits) =
        Normal {| sessions := m; sent := [] |} /\
        List.length m = distinct (map snd inits) /\
        forall token,
          Map_get m (JStr token) = option_map record_at (last_init token inits)) /\
  (forall (w : World) (token : string) (now1 now2 : number),
      exists m1 m2,
        serve StringToNumber NumberToString w [(now1, SessionInit token)] =
        Normal {| sessions := m1; sent := sent w |} /\
        serve StringToNumber NumberToString w
          [(now1, SessionInit token); (now2, SessionInit token)] =
        Normal {| sessions := m2; sent := sent w |} /\
        List.length m2 = List.length m1 /\
        Map_get m2 (JStr token) = Some (record_at now2)).
Proof.
  split.
  - intros inits. exists (init_all [] inits). split; [apply serve_inits|]. split.
    + destruct (init_all_keys inits [] [] eq_refl (NoDup_nil _)) as (tokens & Hk & Hn & Hmem).
      rewrite <- (length_map fst), Hk, length_map. unfold distinct.
      apply Permutation_length, NoDup_Permutation; [assumption | apply NoDup_nodup |].
      intros t. rewrite nodup_In, Hmem. simpl. intuition.
    + intros token. rewrite init_all_get. simpl.
      destruct (last_init token inits); reflexivity.
  - intros w token now1 now2.
    exists (init_all (sessions w) [(now1, token)]),
           (init_all (sessions w) [(now1, token); (now2, token)]).
    split; [apply (serve_inits w [(now1, token)])|].
    split; [apply (serve_inits w [(now1, token); (now2, token)])|].
    simpl. split.
    + rewrite Map_set_length, Map_get_set_string, String.eqb_refl. reflexivity.
    + rewrite Map_get_set_string, String.eqb_refl. reflexivity.
Qed.

End Engine.

(** ** Sample messages

    Their compared fields are numbers or absent, so no run below reaches a
    string conversion; the two conversions are fixed arbitrarily for them. *)
Definition sample_StringToNumber : string -> number := fun _ => nan.

Definition sample_NumberToString : number -> string := fun _ => "".

Definition handle : number -> Message -> Handler unit :=
  Server.on_message sample_StringToNumber sample_NumberToString.

(** A report whose payload carries the three fields in another order. *)
Definition sample_payload : JSValue :=
  JObj [("sessionToken", JStr "mock-token-123");
        ("mouseJitter", JNum 0.31);
        ("typingSpeed", JNum 612.5)].

Definition sample_report : JSValue :=
  JObj [("payload", sample_payload); ("type", JStr "BEHAVIOR_REPORT")].

(** The rule at the sample report: 612.5 > 500 and not 0.31 > 0.8. *)
Lemma score_rule_witness :
  handle 1700000000000 (JSON sample_report) start =
  Normal (tt, after_send start (RISK_UPDATE {| riskScore := 30; reason := "Normal" |})).
Proof.
  apply (proj1 (score_rule sample_StringToNumber sample_NumberToString)
           1700000000000 sample_report sample_payload (JNum 612.5) (JNum 0.31) true false start);
    reflexivity.
Defined.

(** A typing speed of exactly 500 beside a jitter of 0.93. *)
Lemma thresholds_strict_witness :
  handle 1700000000000 (BehaviorReport 500 0.93 "mock-token-123") start =
  Normal (tt, after_send start (RISK_UPDATE {| riskScore := 40; reason := "Normal" |})).
Proof.
  apply (proj1 (thresholds_strict sample_StringToNumber sample_NumberToString)
           1700000000000 _
           (JObj [("typingSpeed", JNum 500); ("mouseJitter", JNum 0.93);
                  ("sessionToken", JStr "mock-token-123")])
           (JNum 0.93) true start);
    reflexivity.
Defined.

(** A message of a kind the server does not know. *)
Definition heartbeat : JSValue :=
  JObj [("type", JStr "HEARTBEAT"); ("payload", JObj [("seq", JNum 7)])].

(** The heartbeat leaves a fresh server as it was. *)
Lemma unknown_type_ignored_witness :
  handle 1700000000000 (JSON heartbeat) start =
  Normal (tt, start).
Proof.
  apply (unknown_type_ignored sample_StringToNumber sample_NumberToString
           1700000000000 heartbeat (JStr "HEARTBEAT") start);
    reflexivity.
Defined.

(** A server that already holds one session. *)
Definition one_session : World :=
  {| sessions := [(JStr "mock-token-123", record_at 1700000000000)]; sent := [] |}.

(** The same two fields under two tokens, on two servers, at two times. *)
Lemma answer_ignores_token_witness :
  replies start (handle 1700000000000 (JSON sample_report)) =
  replies one_session (handle 1700000005000 (BehaviorReport 612.5 0.31 "another-token")).
Proof.
  apply (answer_ignores_token sample_StringToNumber sample_NumberToString
           1700000000000 1700000005000 sample_report _ sample_payload
           (JObj [("typingSpeed", JNum 612.5); ("mouseJitter", JNum 0.31);
                  ("sessionToken", JStr "another-token")]));
    reflexivity.
Defined.

(** Against C3 as stated: the handler throws on a frame that is not JSON,
    on a report without a payload, and on a report whose [typingSpeed] is
    an object with an own [toString] property (no string conversion is
    reached in any of the three). *)
Lemma malformed_report_throws :
  handle 1700000000000 NotJSON start = Throw SyntaxError /\
  handle 1700000000000
    (JSON (JObj [("type", JStr "BEHAVIOR_REPORT")])) start = Throw TypeError /\
  handle 1700000000000
    (JSON (JObj [("type", JStr "BEHAVIOR_REPORT");
                 ("payload", JObj [("typingSpeed", JObj [("toString", JNull)]);
                                   ("mouseJitter", JNum 0)])])) start = Throw TypeError.
Proof.
  destruct (on_message_throws sample_StringToNumber sample_NumberToString 1700000000000 start)
    as (Hsyntax & _ & Hpayload & Hfield).
  repeat split; assumption.
Qed.

End ServerProperties.

(* ================================================================== *)
(** * Properties of the sampling hook                                  *)
(* ================================================================== *)

Module MonitorProperties.
Import Monitor.
Local Open Scope float_scope.

(** ** The specification's vocabulary *)

(** Arithmetic mean: the sum from the left, starting at 0, over the
    count. *)
Definition mean (l : list number) : number :=
  fold_left (fun a b => a + b) l 0 / length_number l.

(** The gaps between consecutive timestamps. *)
Fixpoint gaps (times : list number) : list number :=
  match times with
  | [] => []
  | t0 :: rest =>
      match rest with
      | [] => []
      | t1 :: _ => (t1 - t0) :: gaps rest
      end
  end.

(** The most recent [n] elements of a history, oldest first. *)
Definition most_recent {A} (n : nat) (history : list A) : list A :=
  skipn (List.length history - n) history.

(** Euclidean distance of two positions. *)
Definition distance (p q : Point) : number :=
  PrimFloat.sqrt ((x q - x p) * (x q - x p) + (y q - y p) * (y q - y p)).

(** The step lengths between consecutive positions. *)
Fixpoint step_lengths (positions : list Point) : list number :=
  match positions with
  | [] => []
  | p :: rest =>
      match rest with
      | [] => []
      | q :: _ => distance p q :: step_lengths rest
      end
  end.

(** Mean absolute deviation of a list from its own mean. *)
Definition mean_abs_deviation (l : list number) : number :=
  mean (map (fun d => PrimFloat.abs (d - mean l)) l).

(** The jitter the specification gives a window of positions. *)
Definition jitter_of (window : list Point) : number :=
  if (List.length window <? 3)%nat then 0
  else mean_abs_deviation (step_lengths window).

(** A window of capacity [cap] taking one more element. *)
Definition slide {A} (cap : nat) (window : list A) (a : A) : list A :=
  let pushed := push window a in
  if (cap <? List.length pushed)%nat then shift pushed else pushed.

(** The key events and pointer events of a run, in order. *)
Definition key_times (events : list Event) : list number :=
  flat_map (fun e => match e with KeyDown now => [now] | _ => [] end) events.

Definition pointer_positions (events : list Event) : list Point :=
  flat_map (fun e => match e with
                     | MouseMove clientX clientY _ => [{| x := clientX; y := clientY |}]
                     | _ => []
                     end) events.

(** Events that are input, not a render. *)
Definition is_input (e : Event) : bool :=
  match e with
  | Render _ => false
  | _ => true
  end.

(** A timestamp the handler takes for a set one ([!== 0]). *)
Definition is_set (t : number) : bool := negb (t =? 0).

(** ** Sliding windows *)

Section Windows.

Context {A : Type}.
Implicit Types (window history : list A) (a : A).

Lemma tl_skipn (k : nat) (l : list A) : tl (skipn k l) = skipn (S k) l.
Proof.
  revert l. induction k as [|k IH]; intros [|b l]; try reflexivity.
  apply (IH l).
Qed.

Lemma slide_length (cap : nat) window a :
  (List.length window <= cap -> List.length (slide cap window a) <= cap)%nat.
Proof.
  intros Hlen. unfold slide, push, shift.
  destruct (cap <? List.length (window ++ [a]))%nat eqn:Hover.
  - destruct window as [|b window]; simpl in *; [lia|].
    rewrite length_app; simpl. lia.
  - apply Nat.ltb_ge in Hover. exact Hover.
Qed.

(** A window that holds the most recent [cap] elements of a history still
    does after one more element went in. *)
Lemma slide_most_recent (cap : nat) history a :
  slide cap (most_recent cap history) a = most_recent cap (history ++ [a]).
Proof.
  unfold slide, most_recent, push, shift.
  rewrite !length_app, length_skipn. cbn [List.length].
  destruct (cap <? List.length history - (List.length history - cap) + 1)%nat eqn:Hover.
  - apply Nat.ltb_lt in Hover.
    replace (List.length history + 1 - cap)%nat with (S (List.length history - cap)) by lia.
    rewrite <- tl_skipn, skipn_app.
    replace (List.length history - cap - List.length history)%nat with 0%nat by lia.
    reflexivity.
  - apply Nat.ltb_ge in Hover.
    replace (List.length history - cap)%nat with 0%nat by lia.
    replace (List.length history + 1 - cap)%nat with 0%nat by lia.
    reflexivity.
Qed.

Lemma most_recent_length (cap : nat) history :
  List.length (most_recent cap history) = Nat.min cap (List.length history).
Proof.
  unfold most_recent. rewrite length_skipn. lia.
Qed.

Lemma most_recent_all (cap : nat) history :
  (List.length history <= cap)%nat -> most_recent cap history = history.
Proof.
  intros Hlen. unfold most_recent.
  replace (List.length history - cap)%nat with 0%nat by lia. reflexivity.
Qed.

(** Filling an empty window element by element. *)
Lemma fold_slide (cap : nat) history :
  fold_left (slide cap) history [] = most_recent cap history.
Proof.
  induction history as [|a history IH] using rev_ind; [reflexivity|].
  rewrite fold_left_app. cbn [fold_left]. rewrite IH. apply slide_most_recent.
Qed.

End Windows.

(** ** The two handlers *)

Lemma fold_left_map {B C D : Type} (f : D -> C -> D) (g : B -> C) (l : list B) (d : D) :
  fold_left f (map g l) d = fold_left (fun acc b => f acc (g b)) l d.
Proof.
  revert d. induction l as [|b l IH]; intros d; [reflexivity | apply IH].
Qed.

Lemma fold_push {B : Type} (f : nat -> B) (indices : list nat) (acc : list B) :
  fold_left (fun deltas i => push deltas (f i)) indices acc = (acc ++ map f indices)%list.
Proof.
  revert acc. induction indices as [|i indices IH]; intros acc; simpl.
  - symmetry. apply app_nil_r.
  - rewrite IH. unfold push. rewrite <- app_assoc. reflexivity.
Qed.

Lemma indexed_steps (origin : Point) (positions : list Point) :
  map (fun i => distance (nth (i - 1) positions origin) (nth i positions origin))
      (seq 1 (List.length positions - 1)) =
  step_lengths positions.
Proof.
  induction positions as [|p rest IH]; [reflexivity|].
  destruct rest as [|q rest]; [reflexivity|].
  replace (List.length (p :: q :: rest) - 1)%nat with (S (List.length (q :: rest) - 1))
    by (cbn [List.length]; lia).
  change (step_lengths (p :: q :: rest)) with (distance p q :: step_lengths (q :: rest)).
  cbn [seq map]. apply f_equal2; [reflexivity|].
  rewrite <- IH, <- seq_shift, map_map.
  apply map_ext_in. intros i Hi. apply in_seq in Hi.
  destruct i as [|i]; [lia|].
  rewrite !Nat.sub_succ, !Nat.sub_0_r. reflexivity.
Qed.

(** The loop of lines 41-47 collects the step lengths of the window. *)
Lemma deltas_of_step_lengths (positions : list Point) :
  deltas_of positions = step_lengths positions.
Proof.
  unfold deltas_of.
  rewrite (fold_push
             (fun i => distance (nth (i - 1) positions {| x := 0; y := 0 |})
                                (nth i positions {| x := 0; y := 0 |}))).
  apply indexed_steps.
Qed.

Lemma length_number_map {B C : Type} (g : B -> C) (l : list B) :
  length_number (map g l) = length_number l.
Proof.
  unfold length_number. rewrite length_map. reflexivity.
Qed.

Lemma handleKeyDown_keyIntervals (now : number) (h : Hook) :
  keyIntervals (handleKeyDown now h) =
  if is_set (lastKeyTime h)
  then slide 10 (keyIntervals h) (now - lastKeyTime h)
  else keyIntervals h.
Proof.
  reflexivity.
Qed.

Lemma handleKeyDown_typingSpeed (now : number) (h : Hook) :
  typingSpeed (data (handleKeyDown now h)) =
  if (0 <? List.length (keyIntervals (handleKeyDown now h)))%nat
  then mean (keyIntervals (handleKeyDown now h))
  else 0.
Proof.
  reflexivity.
Qed.

Lemma handleMouseMove_mousePositions (clientX clientY now : number) (h : Hook) :
  mousePositions (handleMouseMove clientX clientY now h) =
  slide 20 (mousePositions h) {| x := clientX; y := clientY |}.
Proof.
  reflexivity.
Qed.

Lemma handleMouseMove_mouseJitter (clientX clientY now : number) (h : Hook) :
  mouseJitter (data (handleMouseMove clientX clientY now h)) =
  jitter_of (mousePositions (handleMouseMove clientX clientY now h)).
Proof.
  rewrite handleMouseMove_mousePositions.
  unfold handleMouseMove, jitter_of. cbn [data mouseJitter].
  fold (slide 20 (mousePositions h) {| x := clientX; y := clientY |}).
  set (window := slide 20 (mousePositions h) {| x := clientX; y := clientY |}).
  destruct (2 <? List.length window)%nat eqn:Hmany.
  - apply Nat.ltb_lt in Hmany.
    replace (List.length window <? 3)%nat with false by (symmetry; apply Nat.ltb_ge; lia).
    rewrite deltas_of_step_lengths.
    unfold mean_abs_deviation, mean, Math_abs.
    rewrite fold_left_map, length_number_map. reflexivity.
  - apply Nat.ltb_ge in Hmany.
    replace (List.length window <? 3)%nat with true by (symmetry; apply Nat.ltb_lt; lia).
    reflexivity.
Qed.

(** ** Runs of the hook *)

Lemma gaps_snoc (times : list number) (t : number) :
  times <> [] -> gaps (times ++ [t]) = (gaps times ++ [t - last times 0])%list.
Proof.
  induction times as [|t0 rest IH]; [contradiction|]. intros _.
  destruct rest as [|t1 rest]; [reflexivity|].
  change (gaps ((t0 :: t1 :: rest) ++ [t]))
    with ((t1 - t0) :: gaps ((t1 :: rest) ++ [t])).
  rewrite IH by discriminate. reflexivity.
Qed.

Lemma gaps_length (times : list number) :
  List.length (gaps times) = (List.length times - 1)%nat.
Proof.
  induction times as [|t0 rest IH]; [reflexivity|].
  destruct rest as [|t1 rest]; [reflexivity|].
  change (gaps (t0 :: t1 :: rest)) with ((t1 - t0) :: gaps (t1 :: rest)).
  cbn [List.length] in *. lia.
Qed.

Lemma forallb_last {B : Type} (P : B -> bool) (l : list B) (d : B) :
  forallb P l = true -> l <> [] -> P (last l d) = true.
Proof.
  intros Hall Hne. rewrite forallb_forall in Hall. apply Hall.
  rewrite (app_removelast_last d Hne) at 2. apply in_or_app. right. left. reflexivity.
Qed.

Lemma run_snoc (h : Hook) (events : list Event) (e : Event) :
  run h (events ++ [e]) = step (run h events) e.
Proof.
  unfold run. rewrite fold_left_app. reflexivity.
Qed.

(** Without a render in between, a mounted active hook keeps listening. *)
Lemma run_listening (now0 : number) (events : list Event) :
  forallb is_input events = true ->
  listening (run (mount true now0) events) = true.
Proof.
  induction events as [|e events IH] using rev_ind; intros Hin; [reflexivity|].
  rewrite forallb_app in Hin. apply andb_true_iff in Hin as [Hin He].
  rewrite run_snoc. specialize (IH Hin).
  destruct e; simpl in He; try discriminate; simpl; rewrite IH; exact IH.
Qed.

(** The key state after a run: the last timestamp, the window, and the
    typing speed derived from the window. *)
Lemma run_keys (now0 : number) (events : list Event) :
  forallb is_input events = true ->
  forallb is_set (key_times events) = true ->
  let h := run (mount true now0) events in
  lastKeyTime h = last (key_times events) 0 /\
  keyIntervals h = most_recent 10 (gaps (key_times events)) /\
  typingSpeed (data h) =
    if (0 <? List.length (keyIntervals h))%nat then mean (keyIntervals h) else 0.
Proof.
  induction events as [|e events IH] using rev_ind; intros Hin Hset;
    [repeat split|].
  rewrite forallb_app in Hin. apply andb_true_iff in Hin as [Hin He].
  unfold key_times in Hset |- *. rewrite flat_map_app in Hset |- *.
  fold (key_times events) in Hset |- *.
  rewrite forallb_app in Hset. apply andb_true_iff in Hset as [Hset _].
  specialize (IH Hin Hset). cbv zeta in IH |- *. destruct IH as (Hlast & Hwin & Hspeed).
  rewrite run_snoc.
  pose proof (run_listening now0 events Hin) as Hlistening.
  set (h := run (mount true now0) events) in *.
  destruct e as [active|now|clientX clientY now]; [discriminate He| |].
  - cbn [step flat_map]. rewrite Hlistening, app_nil_r.
    split; [symmetry; apply last_last|].
    split; [|apply handleKeyDown_typingSpeed].
    rewrite handleKeyDown_keyIntervals, Hlast, Hwin.
    destruct (key_times events) as [|t0 times] eqn:Htimes; [reflexivity|].
    rewrite (forallb_last is_set (t0 :: times) 0 Hset) by discriminate.
    rewrite slide_most_recent, gaps_snoc by discriminate. reflexivity.
  - cbn [step flat_map]. rewrite Hlistening, !app_nil_r.
    repeat split; assumption.
Qed.

(** The pointer state after a run: the window and the jitter derived from
    the window. *)
Lemma run_pointer (now0 : number) (events : list Event) :
  forallb is_input events = true ->
  let h := run (mount true now0) events in
  mousePositions h = most_recent 20 (pointer_positions events) /\
  mouseJitter (data h) = jitter_of (mousePositions h).
Proof.
  induction events as [|e events IH] using rev_ind; intros Hin; [split; reflexivity|].
  rewrite forallb_app in Hin. apply andb_true_iff in Hin as [Hin He].
  unfold pointer_positions. rewrite flat_map_app. fold (pointer_positions events).
  specialize (IH Hin). cbv zeta in IH |- *. destruct IH as (Hwin & Hjitter).
  rewrite run_snoc.
  pose proof (run_listening now0 events Hin) as Hlistening.
  set (h := run (mount true now0) events) in *.
  destruct e as [active|now|clientX clientY now]; [discriminate He| |].
  - cbn [step flat_map]. rewrite Hlistening, !app_nil_r. split; assumption.
  - cbn [step flat_map]. rewrite Hlistening, app_nil_r.
    split; [|apply handleMouseMove_mouseJitter].
    rewrite handleMouseMove_mousePositions, Hwin. apply slide_most_recent.
Qed.

(** A render touches neither [data] nor a ref. *)
Lemma render_refs (active : bool) (h : Hook) :
  data (render active h) = data h /\
  lastKeyTime (render active h) = lastKeyTime h /\
  keyIntervals (render active h) = keyIntervals h /\
  mousePositions (render active h) = mousePositions h.
Proof.
  unfold render, effect, cleanup.
  destruct (Bool.eqb active (isActive h)), (isActive h), active; repeat split.
Qed.

Lemma step_bounded (h : Hook) (e : Event) :
  (List.length (keyIntervals h) <= 10)%nat ->
  (List.length (mousePositions h) <= 20)%nat ->
  (List.length (keyIntervals (step h e)) <= 10)%nat /\
  (List.length (mousePositions (step h e)) <= 20)%nat.
Proof.
  intros Hkeys Hpointer.
  destruct e as [active|now|clientX clientY now]; cbn [step].
  - destruct (render_refs active h) as (_ & _ & -> & ->). split; assumption.
  - destruct (listening h); [|split; assumption].
    rewrite handleKeyDown_keyIntervals.
    split; [|exact Hpointer].
    destruct (is_set (lastKeyTime h)); [apply slide_length|]; assumption.
  - destruct (listening h); [|split; assumption].
    rewrite handleMouseMove_mousePositions.
    split; [exact Hkeys | apply slide_length; assumption].
Qed.

Lemma run_bounded (active : bool) (now0 : number) (events : list Event) :
  (List.length (keyIntervals (run (mount active now0) events)) <= 10)%nat /\
  (List.length (mousePositions (run (mount active now0) events)) <= 20)%nat.
Proof.
  induction events as [|e events IH] using rev_ind.
  - destruct active; simpl; lia.
  - rewrite run_snoc. apply step_bounded; apply IH.
Qed.

(** ** The claims about the hook *)

(** C4, as the hook has it.  After a run of key and pointer events with at
    least two keystrokes, on a hook mounted active, [typingSpeed] is the
    mean of the most recent min(10, count - 1) gaps between keystrokes,
    where count is the number of keystrokes; these gaps are the key-interval
    window, which holds the most recent 10. *)
Theorem typing_speed_windowed_mean (now0 : number) (events : list Event) :
  forallb is_input events = true ->
  forallb is_set (key_times events) = true ->
  (2 <= List.length (key_times events))%nat ->
  let h := run (mount true now0) events in
  let count := List.length (key_times events) in
  typingSpeed (data h) =
    mean (most_recent (Nat.min 10 (count - 1)) (gaps (key_times events))) /\
  keyIntervals h = most_recent 10 (gaps (key_times events)).
Proof.
  intros Hin Hset Hcount h count.
  destruct (run_keys now0 events Hin Hset) as (_ & Hwin & Hspeed).
  fold h in Hwin, Hspeed. split; [|exact Hwin].
  rewrite Hspeed, Hwin, most_recent_length, gaps_length.
  fold count. unfold count in Hcount.
  replace (0 <? Nat.min 10 (count - 1))%nat with true
    by (symmetry; apply Nat.ltb_lt; unfold count; lia).
  unfold most_recent. rewrite gaps_length. fold count.
  replace (count - 1 - Nat.min 10 (count - 1))%nat with (count - 1 - 10)%nat by lia.
  reflexivity.
Qed.

(** C5.  A pointer event leaves [mouseJitter] at 0 when the window then
    holds fewer than 3 positions, and otherwise at the mean absolute
    deviation of the window's step lengths from their mean; over a run the
    window is the most recent 20 positions, so the jitter is a function of
    the position sequence. *)
Theorem pointer_jitter :
  (forall (clientX clientY now : number) (h : Hook),
      let h' := handleMouseMove clientX clientY now h in
      mouseJitter (data h') =
        if (List.length (mousePositions h') <? 3)%nat then 0
        else mean_abs_deviation (step_lengths (mousePositions h'))) /\
  (forall (now0 : number) (events : list Event),
      forallb is_input events = true ->
      let h := run (mount true now0) events in
      mousePositions h = most_recent 20 (pointer_positions events) /\
      mouseJitter (data h) = jitter_of (most_recent 20 (pointer_positions events))).
Proof.
  split.
  - intros clientX clientY now h. apply handleMouseMove_mouseJitter.
  - intros now0 events Hin h.
    destruct (run_pointer now0 events Hin) as (Hwin & Hjitter).
    fold h in Hwin, Hjitter. rewrite <- Hwin. split; [reflexivity | exact Hjitter].
Qed.

(** C6.  Both windows are first-in first-out and bounded.  Each handler
    pushes at the end and drops the first element when the capacity (10 gaps,
    20 positions) is exceeded; a window filled from empty with capacity + 1
    elements holds all but the first, in order; along a run the windows are
    the most recent 10 gaps and 20 positions; and no event of any run
    leaves a window above its capacity. *)
Theorem windows_fifo_bounded :
  (forall (now : number) (h : Hook),
      is_set (lastKeyTime h) = true ->
      keyIntervals (handleKeyDown now h) =
        slide 10 (keyIntervals h) (now - lastKeyTime h)) /\
  (forall (clientX clientY now : number) (h : Hook),
      mousePositions (handleMouseMove clientX clientY now h) =
        slide 20 (mousePositions h) {| x := clientX; y := clientY |}) /\
  (forall (A : Type) (cap : nat) (first : A) (rest : list A),
      List.length rest = cap ->
      fold_left (slide cap) (first :: rest) [] = rest) /\
  (forall (now0 : number) (events : list Event) (first : number) (rest : list number),
      forallb is_input events = true ->
      forallb is_set (key_times events) = true ->
      gaps (key_times events) = first :: rest ->
      List.length rest = 10%nat ->
      keyIntervals (run (mount true now0) events) = rest) /\
  (forall (now0 : number) (events : list Event) (first : Point) (rest : list Point),
      forallb is_input events = true ->
      pointer_positions events = first :: rest ->
      List.length rest = 20%nat ->
      mousePositions (run (mount true now0) events) = rest) /\
  (forall (active : bool) (now0 : number) (events : list Event),
      (List.length (keyIntervals (run (mount active now0) events)) <= 10)%nat /\
      (List.length (mousePositions (run (mount active now0) events)) <= 20)%nat).
Proof.
  assert (Hover : forall (A : Type) (cap : nat) (first : A) (rest : list A),
             List.length rest = cap -> most_recent cap (first :: rest) = rest).
  { intros A cap first rest Hlen. unfold most_recent. cbn [List.length].
    replace (S (List.length rest) - cap)%nat with 1%nat by lia. reflexivity. }
  split; [|split; [|split; [|split; [|split]]]].
  - intros now h Hset. rewrite handleKeyDown_keyIntervals, Hset. reflexivity.
  - intros clientX clientY now h. apply handleMouseMove_mousePositions.
  - intros A cap first rest Hlen. rewrite fold_slide. apply Hover, Hlen.
  - intros now0 events first rest Hin Hset Hgaps Hlen.
    destruct (run_keys now0 events Hin Hset) as (_ & Hwin & _).
    rewrite Hwin, Hgaps. apply Hover, Hlen.
  - intros now0 events first rest Hin Hpositions Hlen.
    destruct (run_pointer now0 events Hin) as (Hwin & _).
    rewrite Hwin, Hpositions. apply Hover, Hlen.
  - apply run_bounded.
Qed.

(** C2, as the hook has it.  A render that turns the flag from inactive
    to active changes only the flag and the listeners: [data], the
    last-keystroke timestamp and both windows stay what they were, so the
    next keystroke or pointer event is handled on the retained timestamp and
    windows.  They are unset and empty when the hook mounts. *)
Theorem activation_keeps_windows :
  (forall h : Hook,
      isActive h = false ->
      let h' := step h (Render true) in
      isActive h' = true /\ listening h' = true /\
      data h' = data h /\
      lastKeyTime h' = lastKeyTime h /\
      keyIntervals h' = keyIntervals h /\
      mousePositions h' = mousePositions h) /\
  (forall (h : Hook) (now : number),
      isActive h = false ->
      let h' := step (step h (Render true)) (KeyDown now) in
      keyIntervals h' =
        (if is_set (lastKeyTime h)
         then slide 10 (keyIntervals h) (now - lastKeyTime h)
         else keyIntervals h) /\
      typingSpeed (data h') =
        if (0 <? List.length (keyIntervals h'))%nat then mean (keyIntervals h') else 0) /\
  (forall (h : Hook) (clientX clientY now : number),
      isActive h = false ->
      let h' := step (step h (Render true)) (MouseMove clientX clientY now) in
      mousePositions h' = slide 20 (mousePositions h) {| x := clientX; y := clientY |} /\
      mouseJitter (data h') = jitter_of (mousePositions h')) /\
  (forall (active : bool) (now0 : number),
      lastKeyTime (mount active now0) = 0 /\
      keyIntervals (mount active now0) = [] /\
      mousePositions (mount active now0) = []).
Proof.
  assert (Hon : forall h, isActive h = false -> listening (render true h) = true).
  { intros h Hoff. unfold render. rewrite Hoff. reflexivity. }
  split; [|split; [|split]].
  - intros h Hoff h'. subst h'. cbn [step].
    destruct (render_refs true h) as (Hdata & Hlast & Hkeys & Hpointer).
    repeat split; try assumption.
    + unfold render. rewrite Hoff. reflexivity.
    + apply Hon, Hoff.
  - intros h now Hoff h'. subst h'. cbn [step]. rewrite (Hon h Hoff).
    destruct (render_refs true h) as (_ & Hlast & Hkeys & _).
    rewrite handleKeyDown_typingSpeed, handleKeyDown_keyIntervals, Hlast, Hkeys.
    split; reflexivity.
  - intros h clientX clientY now Hoff h'. subst h'. cbn [step]. rewrite (Hon h Hoff).
    destruct (render_refs true h) as (_ & _ & _ & Hpointer).
    rewrite handleMouseMove_mouseJitter, handleMouseMove_mousePositions, Hpointer.
    split; reflexivity.
  - intros [] now0; repeat split.
Qed.

(** ** Sample runs *)

(** Eleven keystrokes: the second 100 ms after the first, the others 10 ms
    apart. *)
Definition eleven_keystrokes : list Event :=
  map KeyDown
    [1700000000000; 1700000000100; 1700000000110; 1700000000120;
     1700000000130; 1700000000140; 1700000000150; 1700000000160;
     1700000000170; 1700000000180; 1700000000190].

(** Two keystrokes and a pointer move, then monitoring is switched off. *)
Definition first_session : list Event :=
  [KeyDown 1700000000000; KeyDown 1700000000100;
   MouseMove 5 5 1700000000200; Render false].

(** Twenty-one pointer moves along a line, between two keystrokes. *)
Definition long_trace : list Event :=
  (KeyDown 1700000000000
   :: map (fun i => MouseMove (of_uint63 (Uint63.of_Z (Z.of_nat i))) 0 1700000000001)
          (seq 0 21))
  ++ [KeyDown 1700000000250].

(** Against C4 as stated: after the eleven keystrokes the typing speed is
    19, the mean of all ten gaps, while the mean of the most recent
    min(9, count - 1) = 9 gaps is 10. *)
Lemma mean_of_nine_gaps_refuted :
  forallb is_input eleven_keystrokes = true /\
  forallb is_set (key_times eleven_keystrokes) = true /\
  List.length (key_times eleven_keystrokes) = 11%nat /\
  typingSpeed (data (run (mount true 1699999999000) eleven_keystrokes)) = 19 /\
  mean (most_recent (Nat.min 9 (List.length (key_times eleven_keystrokes) - 1))
          (gaps (key_times eleven_keystrokes))) = 10 /\
  typingSpeed (data (run (mount true 1699999999000) eleven_keystrokes)) <>
  mean (most_recent (Nat.min 9 (List.length (key_times eleven_keystrokes) - 1))
          (gaps (key_times eleven_keystrokes))).
Proof.
  repeat split; try reflexivity.
  intros H. apply (f_equal (fun v => v <? 15)) in H. vm_compute in H. discriminate H.
Qed.

(** The eleven keystrokes: the mean of the ten gaps. *)
Lemma typing_speed_windowed_mean_witness :
  typingSpeed (data (run (mount true 1699999999000) eleven_keystrokes)) =
    mean (most_recent (Nat.min 10 (List.length (key_times eleven_keystrokes) - 1))
            (gaps (key_times eleven_keystrokes))) /\
  keyIntervals (run (mount true 1699999999000) eleven_keystrokes) =
    most_recent 10 (gaps (key_times eleven_keystrokes)).
Proof.
  apply (typing_speed_windowed_mean 1699999999000 eleven_keystrokes).
  - reflexivity.
  - reflexivity.
  - vm_compute. lia.
Defined.

(** Against C2 as stated: when the flag goes back to active after the
    first session, the key-interval window still holds the gap 100, the
    pointer window the position (5, 5) and the timestamp the second
    keystroke; the next keystroke, 3900 ms later, yields the typing speed
    2000, where the first keystroke of a mounted hook yields 0. *)
Lemma reactivation_keeps_residue :
  isActive (run (mount true 1699999999000) first_session) = false /\
  isActive (run (mount true 1699999999000) (first_session ++ [Render true])) = true /\
  keyIntervals (run (mount true 1699999999000) (first_session ++ [Render true])) = [100] /\
  mousePositions (run (mount true 1699999999000) (first_session ++ [Render true])) =
    [{| x := 5; y := 5 |}] /\
  lastKeyTime (run (mount true 1699999999000) (first_session ++ [Render true])) =
    1700000000100 /\
  typingSpeed (data (run (mount true 1699999999000)
                       (first_session ++ [Render true; KeyDown 1700000004000]))) = 2000 /\
  typingSpeed (data (run (mount true 1699999999000) [KeyDown 1700000004000])) = 0.
Proof.
  repeat split; reflexivity.
Qed.

(** Reactivation after the first session. *)
Lemma activation_keeps_windows_witness :
  let h := run (mount true 1699999999000) first_session in
  let h' := step h (Render true) in
  isActive h' = true /\ listening h' = true /\
  data h' = data h /\
  lastKeyTime h' = lastKeyTime h /\
  keyIntervals h' = keyIntervals h /\
  mousePositions h' = mousePositions h.
Proof.
  apply (proj1 activation_keeps_windows (run (mount true 1699999999000) first_session)).
  reflexivity.
Defined.

(** The long trace: window and jitter after twenty-one moves. *)
Lemma pointer_jitter_witness :
  mousePositions (run (mount true 1699999999000) long_trace) =
    most_recent 20 (pointer_positions long_trace) /\
  mouseJitter (data (run (mount true 1699999999000) long_trace)) =
    jitter_of (most_recent 20 (pointer_positions long_trace)).
Proof.
  apply (proj2 pointer_jitter 1699999999000 long_trace).
  reflexivity.
Defined.

(** The twenty-one moves alone: the window holds all but the first. *)
Lemma windows_fifo_bounded_witness :
  mousePositions (run (mount true 1699999999000) (removelast (tl long_trace))) =
  tl (pointer_positions (removelast (tl long_trace))).
Proof.
  apply (proj1 (proj2 (proj2 (proj2 (proj2 windows_fifo_bounded))))
           1699999999000 (removelast (tl long_trace)) {| x := 0; y := 0 |}).
  - reflexivity.
  - reflexivity.
  - reflexivity.
Defined.

End MonitorProperties.

(* ================================================================== *)
(** * Further properties of the message handler                        *)
(* ================================================================== *)

Module ServerFacts.
Import Server ServerProperties.
Local Open Scope float_scope.

(** [null] and [undefined]: the values no property can be read from. *)
Definition nullish (v : JSValue) : bool :=
  match v with
  | JUndefined | JNull => true
  | _ => false
  end.

(** What [v.key] evaluates to when it evaluates. *)
Definition field (v : JSValue) (key : string) : JSValue :=
  match Get v key with
  | Normal x => x
  | Throw _ => JUndefined
  end.

(** The values whose conversion to a string or a number throws: an object
    with an own [toString] property, and an array that holds such a value
    at any depth. *)
Fixpoint unconvertible (v : JSValue) : bool :=
  match v with
  | JArr elems => existsb unconvertible elems
  | JObj props => has_own props "toString"
  | _ => false
  end.

(** The messages on which the handler throws. *)
Definition throws (message : Message) : bool :=
  match message with
  | NotJSON => true
  | JSON data =>
      nullish data
      || (strict_eq_string (field data "type") "BEHAVIOR_REPORT"
          && (nullish (field data "payload")
              || unconvertible (field (field data "payload") "typingSpeed")
              || unconvertible (field (field data "payload") "mouseJitter")))
      || (strict_eq_string (field data "type") "SESSION_INIT"
          && nullish (field data "payload"))
  end.

Lemma JSValue_nested_ind (P : JSValue -> Prop) :
  P JUndefined -> P JNull -> (forall b, P (JBool b)) -> (forall n, P (JNum n)) ->
  (forall s, P (JStr s)) ->
  (forall elems, Forall P elems -> P (JArr elems)) ->
  (forall props, P (JObj props)) ->
  forall v, P v.
Proof.
  intros Hu Hn Hb Hnum Hs Ha Ho.
  fix IH 1.
  intros [| |b|n|s|elems|props];
    [exact Hu | exact Hn | apply Hb | apply Hnum | apply Hs | | apply Ho].
  apply Ha. induction elems as [|x rest IHrest]; constructor; [apply IH | exact IHrest].
Qed.

Lemma Get_field (v : JSValue) (key : string) :
  Get v key = if nullish v then Throw TypeError else Normal (field v key).
Proof.
  unfold field. destruct v; simpl; try reflexivity.
  destruct (own_property props key); reflexivity.
Qed.

Lemma strict_eq_string_true (v : JSValue) (lit : string) :
  strict_eq_string v lit = true -> v = JStr lit.
Proof.
  destruct v; simpl; try discriminate. intros H. apply String.eqb_eq in H. now subst.
Qed.

Section Engine.

Variable StringToNumber : string -> number.
Variable NumberToString : number -> string.

Local Abbreviation ToString := (ToString NumberToString).
Local Abbreviation ToNumber := (ToNumber StringToNumber NumberToString).
Local Abbreviation gt := (gt StringToNumber NumberToString).
Local Abbreviation score := (score StringToNumber NumberToString).
Local Abbreviation on_message := (on_message StringToNumber NumberToString).
Local Abbreviation serve := (serve StringToNumber NumberToString).

(** [Array.prototype.join] as [ToString] runs it. *)
Fixpoint join (l : list JSValue) : Completion string :=
  match l with
  | [] => Normal ""
  | x :: rest =>
      bindC (match x with
             | JUndefined | JNull => Normal ""
             | _ => ToString x
             end)
            (fun s =>
               match rest with
               | [] => Normal s
               | _ => bindC (join rest) (fun r => Normal (s ++ "," ++ r))
               end)
  end.

Lemma ToString_JArr (elems : list JSValue) : ToString (JArr elems) = join elems.
Proof.
  reflexivity.
Qed.

(** A conversion to a string throws exactly on the unconvertible values,
    and then a [TypeError]. *)
Lemma ToString_outcome (v : JSValue) :
  if unconvertible v then ToString v = Throw TypeError
  else exists s, ToString v = Normal s.
Proof.
  induction v as [| |b|n|s|elems IH|props] using JSValue_nested_ind;
    try (simpl; eauto; fail).
  - rewrite ToString_JArr. cbn [unconvertible].
    induction IH as [|x rest Hx _ IHrest]; [simpl; eauto|].
    cbn [existsb join].
    destruct (unconvertible x) eqn:Hbad.
    + destruct x; try discriminate Hbad; rewrite Hx; reflexivity.
    + cbn [orb].
      assert (Helt : exists s, match x with
                               | JUndefined | JNull => Normal ""
                               | _ => ToString x
                               end = Normal s)
        by (destruct x; eauto).
      destruct Helt as [s ->]. cbn [bindC].
      destruct rest as [|y rest]; [simpl; eauto|].
      destruct (existsb unconvertible (y :: rest)).
      * rewrite IHrest. reflexivity.
      * destruct IHrest as [r ->]. simpl. eauto.
  - simpl. destruct (has_own props "toString"); eauto.
Qed.

Lemma gt_outcome (v : JSValue) (c : number) :
  if unconvertible v then gt v c = Throw TypeError
  else exists b, gt v c = Normal b.
Proof.
  pose proof (ToString_outcome v) as H. unfold JS.gt.
  destruct v; simpl in *; eauto.
  - destruct (existsb unconvertible elems).
    + unfold JS.ToNumber. rewrite H. reflexivity.
    + destruct H as [s Hs]. unfold JS.ToNumber. rewrite Hs. simpl. eauto.
  - destruct (has_own props "toString"); simpl; eauto.
Qed.

Lemma score_outcome (payload : JSValue) :
  if nullish payload
     || unconvertible (field payload "typingSpeed")
     || unconvertible (field payload "mouseJitter")
  then score payload = Throw TypeError
  else exists update, score payload = Normal update.
Proof.
  destruct (nullish payload) eqn:Hnull.
  - cbn [orb]. apply score_throws. rewrite Get_field, Hnull. reflexivity.
  - cbn [orb].
    rewrite (score_fields StringToNumber NumberToString payload
               (field payload "typingSpeed") (field payload "mouseJitter"))
      by (rewrite Get_field, Hnull; reflexivity).
    pose proof (gt_outcome (field payload "typingSpeed") 500) as Hts.
    pose proof (gt_outcome (field payload "mouseJitter") 0.8) as Hmj.
    destruct (unconvertible (field payload "typingSpeed")).
    + rewrite Hts. reflexivity.
    + destruct Hts as [fast ->]. cbn [orb bindC].
      destruct (unconvertible (field payload "mouseJitter")).
      * rewrite Hmj. reflexivity.
      * destruct Hmj as [erratic ->]. simpl. eauto.
Qed.

(** C3, as the handler has it.  A frame that is not JSON makes the
    handler throw a [SyntaxError].  A report throws a [TypeError] when its
    payload is missing or [null], or when [typingSpeed] or [mouseJitter]
    holds a value that cannot be converted (an object with an own
    [toString] property, or an array that holds one at any depth); every
    other report is answered by one RISK_UPDATE without a throw, whatever
    its two fields hold: nothing, [null], booleans, numbers, strings, plain
    objects, arrays of those.  And a report that lacks [typingSpeed] (or
    [mouseJitter]) is answered exactly as the report that has 0 there and
    the same other field. *)
Theorem lenient_decode :
  (forall (now : number) (w : World),
      on_message now NotJSON w = Throw SyntaxError) /\
  (forall (now : number) (data payload : JSValue) (w : World),
      Get data "type" = Normal (JStr "BEHAVIOR_REPORT") ->
      Get data "payload" = Normal payload ->
      (nullish payload
       || unconvertible (field payload "typingSpeed")
       || unconvertible (field payload "mouseJitter") = true ->
       on_message now (JSON data) w = Throw TypeError) /\
      (nullish payload
       || unconvertible (field payload "typingSpeed")
       || unconvertible (field payload "mouseJitter") = false ->
       exists update,
         on_message now (JSON data) w = Normal (tt, after_send w (RISK_UPDATE update)))) /\
  (forall v : JSValue, primitive v = true -> unconvertible v = false) /\
  (forall props : list (string * JSValue),
      has_own props "toString" = false -> unconvertible (JObj props) = false) /\
  (forall elems : list JSValue,
      forallb (fun x => negb (unconvertible x)) elems = true ->
      unconvertible (JArr elems) = false) /\
  (forall (now : number) (data data0 payload payload0 : JSValue) (w : World),
      Get data "type" = Normal (JStr "BEHAVIOR_REPORT") ->
      Get data0 "type" = Normal (JStr "BEHAVIOR_REPORT") ->
      Get data "payload" = Normal payload ->
      Get data0 "payload" = Normal payload0 ->
      Get payload "typingSpeed" = Normal JUndefined ->
      Get payload0 "typingSpeed" = Normal (JNum 0) ->
      Get payload0 "mouseJitter" = Get payload "mouseJitter" ->
      on_message now (JSON data) w = on_message now (JSON data0) w) /\
  (forall (now : number) (data data0 payload payload0 : JSValue) (w : World),
      Get data "type" = Normal (JStr "BEHAVIOR_REPORT") ->
      Get data0 "type" = Normal (JStr "BEHAVIOR_REPORT") ->
      Get data "payload" = Normal payload ->
      Get data0 "payload" = Normal payload0 ->
      Get payload "mouseJitter" = Normal JUndefined ->
      Get payload0 "mouseJitter" = Normal (JNum 0) ->
      Get payload0 "typingSpeed" = Get payload "typingSpeed" ->
      on_message now (JSON data) w = on_message now (JSON data0) w).
Proof.
  split; [reflexivity|].
  split; [|split; [|split; [|split; [|exact (missing_field_as_zero _ _)]]]].
  - intros now data payload w Htype Hpayload.
    rewrite (on_message_report _ _ now data payload w Htype Hpayload).
    pose proof (score_outcome payload) as Hscore.
    destruct (nullish payload
              || unconvertible (field payload "typingSpeed")
              || unconvertible (field payload "mouseJitter")).
    + rewrite Hscore. split; [reflexivity | discriminate].
    + destruct Hscore as [update ->]. split; [discriminate | eauto].
  - intros v Hv. destruct v; try discriminate Hv; reflexivity.
  - intros props Hown. exact Hown.
  - intros elems Hall. cbn [unconvertible].
    induction elems as [|x rest IH]; [reflexivity|].
    cbn [forallb existsb] in *. apply andb_true_iff in Hall as [Hx Hrest].
    rewrite (IH Hrest), orb_false_r. apply negb_true_iff, Hx.
Qed.

(** The handler on a parsed value other than [null], branch by branch. *)
Lemma on_message_unfold (now : number) (data : JSValue) (w : World) :
  nullish data = false ->
  on_message now (JSON data) w =
  if strict_eq_string (field data "type") "BEHAVIOR_REPORT" then
    match score (field data "payload") with
    | Normal update => Normal (tt, after_send w (RISK_UPDATE update))
    | Throw e => Throw e
    end
  else if strict_eq_string (field data "type") "SESSION_INIT" then
    if nullish (field data "payload") then Throw TypeError
    else Normal (tt, {| sessions := Map_set (sessions w)
                                      (field (field data "payload") "token")
                                      (record_at now);
                        sent := sent w |})
  else Normal (tt, w).
Proof.
  intros Hdata.
  assert (Htype : Get data "type" = Normal (field data "type"))
    by (rewrite Get_field, Hdata; reflexivity).
  assert (Hpayload : Get data "payload" = Normal (field data "payload"))
    by (rewrite Get_field, Hdata; reflexivity).
  destruct (strict_eq_string (field data "type") "BEHAVIOR_REPORT") eqn:Hreport.
  - apply strict_eq_string_true in Hreport. rewrite Hreport in Htype.
    apply on_message_report; assumption.
  - unfold Server.on_message, bind, eval, JSON_parse.
    rewrite Htype, Hreport. cbn [ret].
    destruct (strict_eq_string (field data "type") "SESSION_INIT"); [|reflexivity].
    rewrite Hpayload, Get_field.
    destruct (nullish (field data "payload")); reflexivity.
Qed.

(** X1.  The handler throws exactly on the frames that are not JSON (a
    [SyntaxError]) and, with a [TypeError], on [null], on a report or a
    session init whose payload is missing or [null], and on a report whose
    [typingSpeed] or [mouseJitter] cannot be converted; on every other
    frame it completes.  Neither the session map, nor the clock, nor the
    engine's string conversions have a say. *)
Theorem handler_throws_exactly (now : number) (message : Message) (w : World) :
  (throws message = true ->
   on_message now message w =
   Throw (match message with NotJSON => SyntaxError | JSON _ => TypeError end)) /\
  (throws message = false ->
   exists w', on_message now message w = Normal (tt, w')).
Proof.
  destruct message as [|data]; [split; [reflexivity | discriminate]|].
  cbn [throws]. destruct (nullish data) eqn:Hdata.
  - split; [intros _ | discriminate].
    unfold Server.on_message, bind, eval, JSON_parse.
    rewrite Get_field, Hdata. reflexivity.
  - rewrite (on_message_unfold now data w Hdata). cbn [orb].
    pose proof (score_outcome (field data "payload")) as Hscore.
    destruct (strict_eq_string (field data "type") "BEHAVIOR_REPORT") eqn:Hreport.
    + apply strict_eq_string_true in Hreport. rewrite Hreport.
      cbn [strict_eq_string andb]. change ("BEHAVIOR_REPORT" =? "SESSION_INIT")%string with false.
      cbn [andb]. rewrite orb_false_r.
      destruct (nullish (field data "payload")
                || unconvertible (field (field data "payload") "typingSpeed")
                || unconvertible (field (field data "payload") "mouseJitter")).
      * rewrite Hscore. split; [reflexivity | discriminate].
      * destruct Hscore as [update ->]. split; [discriminate | eauto].
    + cbn [andb orb].
      destruct (strict_eq_string (field data "type") "SESSION_INIT"); cbn [andb].
      * destruct (nullish (field data "payload"));
          (split; [try reflexivity; discriminate | try discriminate; eauto]).
      * split; [discriminate | eauto].
Qed.

(** X2.  A run that completes does at most one thing: nothing, or one
    RISK_UPDATE sent with the session map untouched, or one [set] on the
    session map (with the record of this run's clock reading) and nothing
    sent. *)
Theorem at_most_one_effect (now : number) (message : Message) (w w' : World) :
  on_message now message w = Normal (tt, w') ->
  w' = w \/
  (exists update, w' = after_send w (RISK_UPDATE update)) \/
  (exists token,
      w' = {| sessions := Map_set (sessions w) token (record_at now); sent := sent w |}).
Proof.
  destruct message as [|data]; [discriminate|].
  destruct (nullish data) eqn:Hdata.
  - unfold Server.on_message, bind, eval, JSON_parse.
    rewrite Get_field, Hdata. discriminate.
  - rewrite (on_message_unfold now data w Hdata).
    destruct (strict_eq_string (field data "type") "BEHAVIOR_REPORT").
    + destruct (score (field data "payload")) as [update|]; [|discriminate].
      intros [= <-]. right. left. eauto.
    + destruct (strict_eq_string (field data "type") "SESSION_INIT").
      * destruct (nullish (field data "payload")); [discriminate|].
        intros [= <-]. right. right. eauto.
      * intros [= <-]. left. reflexivity.
Qed.

(** X3.  Every update the scorer produces comes from the rule, and its
    reason is "Anomalous interaction detected" exactly when both
    comparisons hold: one signal alone, however large, is reported
    "Normal". *)
Theorem anomaly_needs_both_signals (payload : JSValue) (update : RiskUpdate) :
  score payload = Normal update ->
  exists fast erratic,
    gt (field payload "typingSpeed") 500 = Normal fast /\
    gt (field payload "mouseJitter") 0.8 = Normal erratic /\
    update = risk_rule fast erratic /\
    reason update =
      if fast && erratic then "Anomalous interaction detected" else "Normal".
Proof.
  intros Hscore.
  destruct (nullish payload) eqn:Hnull.
  - rewrite (score_throws StringToNumber NumberToString payload TypeError) in Hscore;
      [discriminate|].
    rewrite Get_field, Hnull. reflexivity.
  - rewrite (score_fields StringToNumber NumberToString payload
               (field payload "typingSpeed") (field payload "mouseJitter")) in Hscore
      by (rewrite Get_field, Hnull; reflexivity).
    destruct (gt (field payload "typingSpeed") 500) as [fast|]; [|discriminate].
    destruct (gt (field payload "mouseJitter") 0.8) as [erratic|]; [|discriminate].
    cbn [bindC] in Hscore. injection Hscore as <-.
    exists fast, erratic. repeat split. destruct fast, erratic; reflexivity.
Qed.

(** X4.  A field that is not a number is scored as the number it
    converts to: a report is answered exactly as the report that holds that
    number in the field.  So [null] and [false] count as 0, [true] counts
    as 1 (as [mouseJitter] it adds the 40), and a string counts as what the
    engine reads it as. *)
Theorem field_scored_as_number :
  (forall (now : number) (data data0 payload payload0 v : JSValue) (n : number) (w : World),
      Get data "type" = Normal (JStr "BEHAVIOR_REPORT") ->
      Get data0 "type" = Normal (JStr "BEHAVIOR_REPORT") ->
      Get data "payload" = Normal payload ->
      Get data0 "payload" = Normal payload0 ->
      Get payload "typingSpeed" = Normal v ->
      ToNumber v = Normal n ->
      Get payload0 "typingSpeed" = Normal (JNum n) ->
      Get payload0 "mouseJitter" = Get payload "mouseJitter" ->
      on_message now (JSON data) w = on_message now (JSON data0) w) /\
  (forall (now : number) (data data0 payload payload0 v : JSValue) (n : number) (w : World),
      Get data "type" = Normal (JStr "BEHAVIOR_REPORT") ->
      Get data0 "type" = Normal (JStr "BEHAVIOR_REPORT") ->
      Get data "payload" = Normal payload ->
      Get data0 "payload" = Normal payload0 ->
      Get payload "mouseJitter" = Normal v ->
      ToNumber v = Normal n ->
      Get payload0 "mouseJitter" = Normal (JNum n) ->
      Get payload0 "typingSpeed" = Get payload "typingSpeed" ->
      on_message now (JSON data) w = on_message now (JSON data0) w) /\
  (forall (now typingSpeed : number) (flag : bool) (w : World),
      on_message now
        (JSON (JObj [("type", JStr "BEHAVIOR_REPORT");
                     ("payload", JObj [("typingSpeed", JNum typingSpeed);
                                       ("mouseJitter", JBool flag)])])) w =
      Normal (tt, after_send w (RISK_UPDATE (risk_rule (500 <? typingSpeed) flag)))) /\
  (forall (now typingSpeed : number) (s : string) (w : World),
      on_message now
        (JSON (JObj [("type", JStr "BEHAVIOR_REPORT");
                     ("payload", JObj [("typingSpeed", JNum typingSpeed);
                                       ("mouseJitter", JStr s)])])) w =
      Normal (tt, after_send w
                    (RISK_UPDATE (risk_rule (500 <? typingSpeed) (0.8 <? StringToNumber s))))).
Proof.
  assert (Hgt : forall v n c, ToNumber v = Normal n -> gt v c = gt (JNum n) c)
    by (intros v n c H; unfold JS.gt; rewrite H; reflexivity).
  split; [|split; [|split]].
  - intros now data data0 p p0 v n w Ht Ht0 Hp Hp0 Hv Hn Hv0 Hmj.
    rewrite (on_message_report _ _ now data p w Ht Hp),
            (on_message_report _ _ now data0 p0 w Ht0 Hp0).
    destruct (Get_defined _ _ "mouseJitter" _ Hv) as [mj Hmj1]. rewrite Hmj1 in Hmj.
    rewrite (score_fields _ _ p _ _ Hv Hmj1), (score_fields _ _ p0 _ _ Hv0 Hmj).
    rewrite (Hgt v n 500 Hn). reflexivity.
  - intros now data data0 p p0 v n w Ht Ht0 Hp Hp0 Hv Hn Hv0 Hts.
    rewrite (on_message_report _ _ now data p w Ht Hp),
            (on_message_report _ _ now data0 p0 w Ht0 Hp0).
    destruct (Get_defined _ _ "typingSpeed" _ Hv) as [ts Hts1]. rewrite Hts1 in Hts.
    rewrite (score_fields _ _ p _ _ Hts1 Hv), (score_fields _ _ p0 _ _ Hts Hv0).
    rewrite (Hgt v n 0.8 Hn). reflexivity.
  - intros now ts flag w.
    apply (report_answer _ _ now _
             (JObj [("typingSpeed", JNum ts); ("mouseJitter", JBool flag)])
             (JNum ts) (JBool flag));
      try reflexivity.
    destruct flag; reflexivity.
  - intros now ts s w.
    apply (report_answer _ _ now _
             (JObj [("typingSpeed", JNum ts); ("mouseJitter", JStr s)])
             (JNum ts) (JStr s));
      reflexivity.
Qed.

(** ** The session map under any traffic *)

Lemma Map_get_set_keeps (m : Sessions) (key key' : JSValue) (v : SessionRecord) :
  Map_get m key' <> None -> Map_get (Map_set m key v) key' <> None.
Proof.
  induction m as [|[k v'] rest IH]; simpl; [intros H; contradiction H; reflexivity|].
  destruct (SameValueZero k key); simpl;
    destruct (SameValueZero k key'); auto; discriminate.
Qed.

(** What one completed run leaves of the world it found. *)
Lemma on_message_grows (now : number) (message : Message) (w w' : World) :
  on_message now message w = Normal (tt, w') ->
  (forall key, Map_get (sessions w) key <> None -> Map_get (sessions w') key <> None) /\
  (List.length (sessions w) <= List.length (sessions w') <= S (List.length (sessions w)))%nat /\
  exists more, sent w' = (sent w ++ more)%list /\ (List.length more <= 1)%nat.
Proof.
  destruct message as [|data]; [discriminate|].
  destruct (nullish data) eqn:Hdata.
  - unfold Server.on_message, bind, eval, JSON_parse.
    rewrite Get_field, Hdata. discriminate.
  - rewrite (on_message_unfold now data w Hdata).
    destruct (strict_eq_string (field data "type") "BEHAVIOR_REPORT").
    + destruct (score (field data "payload")) as [update|]; [|discriminate].
      intros [= <-]. simpl. repeat split; auto. exists [RISK_UPDATE update]. auto.
    + destruct (strict_eq_string (field data "type") "SESSION_INIT").
      * destruct (nullish (field data "payload")); [discriminate|].
        intros [= <-]. cbn [sessions sent]. split; [|split].
        -- intros key. apply Map_get_set_keeps.
        -- rewrite Map_set_length. destruct (Map_get (sessions w) _); lia.
        -- exists []. rewrite app_nil_r. auto.
      * intros [= <-]. repeat split; auto. exists []. rewrite app_nil_r. auto.
Qed.

(** X5.  Under any traffic that the server survives, nothing is ever
    taken back: a token that has a record keeps one, the map grows by at
    most one entry per frame and never shrinks, and what was sent stays
    sent, followed by at most one more message per frame. *)
Theorem sessions_only_grow (frames : list (number * Message)) (w w' : World) :
  serve w frames = Normal w' ->
  (forall key, Map_get (sessions w) key <> None -> Map_get (sessions w') key <> None) /\
  (List.length (sessions w) <= List.length (sessions w')
   <= List.length (sessions w) + List.length frames)%nat /\
  exists more,
    sent w' = (sent w ++ more)%list /\ (List.length more <= List.length frames)%nat.
Proof.
  revert w. induction frames as [|[now message] rest IH]; intros w.
  - intros [= <-]. repeat split; auto; try lia. exists []. rewrite app_nil_r. auto.
  - cbn [Server.serve].
    destruct (on_message now message w) as [[[] w1]|] eqn:Hrun; [|discriminate].
    intros Hrest.
    destruct (on_message_grows now message w w1 Hrun) as (Hkeys1 & Hlen1 & more1 & Hsent1 & Hmore1).
    destruct (IH w1 Hrest) as (Hkeys & Hlen & more & Hsent & Hmore).
    split; [|split].
    + intros key Hkey. apply Hkeys, Hkeys1, Hkey.
    + cbn [List.length]. lia.
    + exists (more1 ++ more)%list. rewrite Hsent, Hsent1, app_assoc, length_app.
      cbn [List.length]. split; [reflexivity | lia].
Qed.

Lemma Map_set_fresh (m : Sessions) (key : JSValue) (v : SessionRecord) :
  primitive key = false -> Map_set m key v = (m ++ [(key, v)])%list.
Proof.
  intros Hkey. induction m as [|[k v'] rest IH]; simpl.
  - destruct key; try discriminate Hkey; reflexivity.
  - replace (SameValueZero k key) with false
      by (destruct k, key; try discriminate Hkey; reflexivity).
    rewrite IH. reflexivity.
Qed.

(** X6.  A session init whose token is an array or an object never meets
    a stored key: it appends a new entry, whatever the map holds, so the
    same frame served [n] times adds [n] entries. *)
Theorem object_token_always_new (now : number) (data : JSValue) (w : World) :
  nullish data = false ->
  strict_eq_string (field data "type") "SESSION_INIT" = true ->
  nullish (field data "payload") = false ->
  primitive (field (field data "payload") "token") = false ->
  on_message now (JSON data) w =
    Normal (tt, {| sessions :=
                     (sessions w ++ [(field (field data "payload") "token", record_at now)])%list;
                   sent := sent w |}) /\
  forall n : nat,
    exists w',
      serve w (repeat (now, JSON data) n) = Normal w' /\
      List.length (sessions w') = (List.length (sessions w) + n)%nat.
Proof.
  intros Hdata Htype Hpayload Htoken.
  assert (Hone : forall w0,
             on_message now (JSON data) w0 =
             Normal (tt, {| sessions :=
                              (sessions w0
                               ++ [(field (field data "payload") "token", record_at now)])%list;
                            sent := sent w0 |})).
  { intros w0. rewrite (on_message_unfold now data w0 Hdata), Htype, Hpayload.
    apply strict_eq_string_true in Htype. rewrite Htype. cbn [strict_eq_string].
    change ("SESSION_INIT" =? "BEHAVIOR_REPORT")%string with false. cbv iota.
    rewrite (Map_set_fresh _ _ _ Htoken). reflexivity. }
  split; [apply Hone|].
  intros n. revert w. induction n as [|n IH]; intros w.
  - exists w. split; [reflexivity | lia].
  - cbn [repeat Server.serve]. rewrite Hone.
    destruct (IH {| sessions :=
                      (sessions w
                       ++ [(field (field data "payload") "token", record_at now)])%list;
                    sent := sent w |}) as (w' & Hserve & Hlen).
    exists w'. split; [exact Hserve|].
    rewrite Hlen. cbn [sessions]. rewrite length_app. cbn [List.length]. lia.
Qed.

(** A number equal to 0 is one of the two zeros. *)
Lemma eqb_zero_inv (n : number) :
  (n =? 0) = true -> exists sign, Prim2SF n = S754_zero sign.
Proof.
  rewrite FloatAxioms.eqb_spec. change (Prim2SF 0) with (S754_zero false).
  destruct (Prim2SF n) as [sign|sign| |sign m e]; try discriminate; eauto.
  all: destruct sign; discriminate.
Qed.

Lemma eqb_zero_sym (n : number) : (n =? 0) = true -> (0 =? n) = true.
Proof.
  intros H. destruct (eqb_zero_inv n H) as [sign Hn].
  rewrite FloatAxioms.eqb_spec, Hn. reflexivity.
Qed.

Lemma SameValueZero_stored_key (key : JSValue) :
  primitive key = true ->
  SameValueZero
    match key with
    | JNum n => if n =? 0 then JNum 0 else key
    | _ => key
    end key = true.
Proof.
  destruct key as [| |b|n|s|elems|props]; try discriminate; intros _; simpl;
    try reflexivity.
  - destruct b; reflexivity.
  - destruct (n =? 0) eqn:Hzero; simpl.
    + rewrite (eqb_zero_sym n Hzero). reflexivity.
    + unfold is_nan. destruct (n =? n); reflexivity.
  - apply String.eqb_refl.
Qed.

Lemma Map_get_set_same (m : Sessions) (key : JSValue) (v : SessionRecord) :
  primitive key = true -> Map_get (Map_set m key v) key = Some v.
Proof.
  intros Hkey. induction m as [|[k v'] rest IH].
  - cbn [Map_set Map_get]. rewrite (SameValueZero_stored_key key Hkey). reflexivity.
  - cbn [Map_set]. destruct (SameValueZero k key) eqn:Hk; cbn [Map_get]; rewrite Hk;
      [reflexivity | exact IH].
Qed.

(** X7.  After a session init whose token is a string, a number, a
    boolean, [null] or absent, looking the token up in the map gives the
    record of that init, whatever the map held before; nothing is sent. *)
Theorem init_then_lookup (now : number) (data : JSValue) (w : World) :
  nullish data = false ->
  strict_eq_string (field data "type") "SESSION_INIT" = true ->
  nullish (field data "payload") = false ->
  primitive (field (field data "payload") "token") = true ->
  exists w',
    on_message now (JSON data) w = Normal (tt, w') /\
    Map_get (sessions w') (field (field data "payload") "token") = Some (record_at now) /\
    sent w' = sent w.
Proof.
  intros Hdata Htype Hpayload Htoken.
  rewrite (on_message_unfold now data w Hdata), Htype, Hpayload.
  apply strict_eq_string_true in Htype. rewrite Htype. cbn [strict_eq_string].
  change ("SESSION_INIT" =? "BEHAVIOR_REPORT")%string with false. cbv iota.
  eexists. split; [reflexivity|]. cbn [sessions sent].
  split; [apply Map_get_set_same, Htoken | reflexivity].
Qed.

(** ** The order of binary64 numbers *)

(** A number that is not NaN, placed on a line: the sign class first, then
    exponent and mantissa (mirrored for a negative number). *)
Definition rank (x : spec_float) : option (Z * Z * Z) :=
  match x with
  | S754_nan => None
  | S754_infinity sign => Some (if sign then (-2, 0, 0) else (2, 0, 0))%Z
  | S754_zero _ => Some (0, 0, 0)%Z
  | S754_finite sign m e =>
      Some (if sign then (-1, - e, - Z.pos m) else (1, e, Z.pos m))%Z
  end.

Definition lex (a b : Z * Z * Z) : comparison :=
  let '(a1, a2, a3) := a in
  let '(b1, b2, b3) := b in
  match (a1 ?= b1)%Z with
  | Eq => match (a2 ?= b2)%Z with
          | Eq => (a3 ?= b3)%Z
          | c => c
          end
  | c => c
  end.

Lemma SFcompare_rank (x y : spec_float) :
  SFcompare x y =
  match rank x, rank y with
  | Some a, Some b => Some (lex a b)
  | _, _ => None
  end.
Proof.
  destruct x as [sx|sx| |sx mx ex], y as [sy|sy| |sy my ey];
    try reflexivity; try (destruct sx; reflexivity); try (destruct sy; reflexivity);
    try (destruct sx, sy; reflexivity).
  destruct sx, sy; cbn [SFcompare rank lex]; try reflexivity.
  rewrite Z.compare_opp, (Z.compare_antisym ex ey).
  destruct (ex ?= ey)%Z; reflexivity.
Qed.

Lemma lex_trans (a b c : Z * Z * Z) : lex a b = Lt -> lex b c <> Gt -> lex a c = Lt.
Proof.
  destruct a as [[a1 a2] a3], b as [[b1 b2] b3], c as [[c1 c2] c3]. unfold lex.
  destruct (Z.compare_spec a1 b1), (Z.compare_spec b1 c1), (Z.compare_spec a1 c1);
    try (intros; first [reflexivity | congruence | exfalso; lia]);
    destruct (Z.compare_spec a2 b2), (Z.compare_spec b2 c2), (Z.compare_spec a2 c2);
    try (intros; first [reflexivity | congruence | exfalso; lia]);
    destruct (Z.compare_spec a3 b3), (Z.compare_spec b3 c3), (Z.compare_spec a3 c3);
    intros; first [reflexivity | congruence | exfalso; lia].
Qed.

(** Below a number that is at most another is below the other. *)
Lemma ltb_leb_trans (c a b : number) :
  (c <? a) = true -> (a <=? b) = true -> (c <? b) = true.
Proof.
  rewrite !FloatAxioms.ltb_spec, FloatAxioms.leb_spec. unfold SFltb, SFleb.
  rewrite !SFcompare_rank.
  destruct (rank (Prim2SF c)) as [rc|], (rank (Prim2SF a)) as [ra|],
    (rank (Prim2SF b)) as [rb|]; try discriminate.
  intros Hca Hab.
  rewrite (lex_trans rc ra rb); [reflexivity | |].
  - destruct (lex rc ra); try discriminate; reflexivity.
  - destruct (lex ra rb); discriminate.
Qed.

Lemma numeric_report_answer
    (now typingSpeed mouseJitter : number) (token : string) (w : World) :
  on_message now (BehaviorReport typingSpeed mouseJitter token) w =
  Normal (tt, after_send w
                (RISK_UPDATE (risk_rule (500 <? typingSpeed) (0.8 <? mouseJitter)))).
Proof.
  apply (report_answer _ _ now _
           (JObj [("typingSpeed", JNum typingSpeed); ("mouseJitter", JNum mouseJitter);
                  ("sessionToken", JStr token)]) (JNum typingSpeed) (JNum mouseJitter));
    reflexivity.
Qed.

(** X15.  The score never falls when a metric rises: of two reports, the
    one whose typing speed and jitter are both at least the other's gets at
    least the other's score, and is called anomalous when the other is. *)
Theorem score_monotone
    (now : number) (typingSpeed typingSpeed' mouseJitter mouseJitter' : number)
    (token token' : string) (w : World) :
  (typingSpeed <=? typingSpeed') = true ->
  (mouseJitter <=? mouseJitter') = true ->
  exists update update',
    on_message now (BehaviorReport typingSpeed mouseJitter token) w =
      Normal (tt, after_send w (RISK_UPDATE update)) /\
    on_message now (BehaviorReport typingSpeed' mouseJitter' token') w =
      Normal (tt, after_send w (RISK_UPDATE update')) /\
    (riskScore update <=? riskScore update') = true /\
    (reason update = "Anomalous interaction detected" ->
     reason update' = "Anomalous interaction detected").
Proof.
  intros Hts Hmj.
  exists (risk_rule (500 <? typingSpeed) (0.8 <? mouseJitter)),
         (risk_rule (500 <? typingSpeed') (0.8 <? mouseJitter')).
  split; [apply numeric_report_answer|]. split; [apply numeric_report_answer|].
  pose proof (fun H => ltb_leb_trans 500 typingSpeed typingSpeed' H Hts) as Hfast.
  pose proof (fun H => ltb_leb_trans 0.8 mouseJitter mouseJitter' H Hmj) as Herratic.
  destruct (500 <? typingSpeed); [rewrite (Hfast eq_refl)|];
    (destruct (0.8 <? mouseJitter); [rewrite (Herratic eq_refl)|]);
    try destruct (500 <? typingSpeed'); try destruct (0.8 <? mouseJitter');
    split; try reflexivity; try discriminate; auto.
Qed.

(** ** Mixed traffic *)

(** X16.  Reports and session inits of the wire format, in any mix: the
    run never throws, every report is answered by the rule and the answers
    go out in the order of the reports, each from its own report alone; the
    session map ends as the inits alone would leave it. *)
Theorem traffic_in_order (frames : list (number * (number * number * string + string)))
    (w : World) :
  serve w
    (map (fun f => (fst f,
                    match snd f with
                    | inl (typingSpeed, mouseJitter, token) =>
                        BehaviorReport typingSpeed mouseJitter token
                    | inr token => SessionInit token
                    end)) frames) =
  Normal
    {| sessions :=
         init_all (sessions w)
           (flat_map (fun f => match snd f with
                               | inl _ => []
                               | inr token => [(fst f, token)]
                               end) frames);
       sent :=
         (sent w ++
          flat_map (fun f => match snd f with
                             | inl (typingSpeed, mouseJitter, _) =>
                                 [RISK_UPDATE (risk_rule (500 <? typingSpeed)
                                                         (0.8 <? mouseJitter))]
                             | inr _ => []
                             end) frames)%list |}.
Proof.
  revert w. induction frames as [|[now [[[ts mj] tok]|tok]] rest IH]; intros w.
  - cbn. rewrite app_nil_r. destruct w; reflexivity.
  - cbn [map fst snd flat_map Server.serve].
    rewrite numeric_report_answer, IH. cbn [sessions sent after_send app]. rewrite <- app_assoc. reflexivity.
  - cbn [map fst snd flat_map Server.serve].
    rewrite (on_message_init _ _ now tok w), IH. reflexivity.
Qed.

End Engine.

(** A report with no [mouseJitter], and the same report with 0 there. *)
Definition report_without_jitter : JSValue :=
  JObj [("type", JStr "BEHAVIOR_REPORT");
        ("payload", JObj [("typingSpeed", JNum 612.5);
                          ("sessionToken", JStr "mock-token-123")])].

Definition report_with_zero_jitter : JSValue :=
  JObj [("type", JStr "BEHAVIOR_REPORT");
        ("payload", JObj [("typingSpeed", JNum 612.5);
                          ("mouseJitter", JNum 0);
                          ("sessionToken", JStr "mock-token-123")])].

(** A report whose [typingSpeed] is a plain object and whose
    [mouseJitter] is an array. *)
Definition report_with_object_fields : JSValue :=
  JObj [("type", JStr "BEHAVIOR_REPORT");
        ("payload", JObj [("typingSpeed", JObj [("ms", JNum 600)]);
                          ("mouseJitter", JArr [JNum 600; JNull]);
                          ("sessionToken", JStr "mock-token-123")])].

(** The report with an object and an array for fields is answered, and
    the report without jitter is answered as the one with jitter 0. *)
Lemma lenient_decode_witness :
  (exists update,
      handle 1700000000000 (JSON report_with_object_fields) start =
      Normal (tt, after_send start (RISK_UPDATE update))) /\
  handle 1700000000000 (JSON report_without_jitter) start =
  handle 1700000000000 (JSON report_with_zero_jitter) start.
Proof.
  split.
  - apply (proj2 (proj1 (proj2 (lenient_decode sample_StringToNumber sample_NumberToString))
                    1700000000000 report_with_object_fields
                    (JObj [("typingSpeed", JObj [("ms", JNum 600)]);
                           ("mouseJitter", JArr [JNum 600; JNull]);
                           ("sessionToken", JStr "mock-token-123")])
                    start eq_refl eq_refl)).
    reflexivity.
  - apply (proj2 (proj2 (proj2 (proj2 (proj2 (proj2
             (lenient_decode sample_StringToNumber sample_NumberToString))))))
             1700000000000 report_without_jitter report_with_zero_jitter
             (JObj [("typingSpeed", JNum 612.5); ("sessionToken", JStr "mock-token-123")])
             (JObj [("typingSpeed", JNum 612.5); ("mouseJitter", JNum 0);
                    ("sessionToken", JStr "mock-token-123")]));
      reflexivity.
Defined.

End ServerFacts.

(* ================================================================== *)
(** * Further properties of the sampling hook                          *)
(* ================================================================== *)

Module MonitorFacts.
Import Monitor MonitorProperties.
Local Open Scope float_scope.

(** The flag of the last render, [active] when there was none. *)
Definition last_flag (active : bool) (events : list Event) : bool :=
  fold_left (fun flag e => match e with Render a => a | _ => flag end) events active.

(** The typing speed that goes with a key-interval window. *)
Definition speed_of (window : list number) : number :=
  if (0 <? List.length window)%nat then mean window else 0.

Lemma render_flags (active : bool) (h : Hook) :
  listening h = isActive h ->
  isActive (render active h) = active /\ listening (render active h) = active.
Proof.
  intros Hsync. unfold render, effect, cleanup.
  destruct active, (isActive h) eqn:Hflag; simpl; rewrite ?Hflag; auto.
Qed.

Lemma handlers_keep_flags (h : Hook) (e : Event) :
  is_input e = true ->
  isActive (step h e) = isActive h /\ listening (step h e) = listening h.
Proof.
  destruct e; [discriminate| |]; intros _; cbn [step];
    destruct (listening h) eqn:Hl; simpl; auto.
Qed.

(** The flag and the listeners after any run. *)
Lemma run_flags (active : bool) (now0 : number) (events : list Event) :
  isActive (run (mount active now0) events) = last_flag active events /\
  listening (run (mount active now0) events) = last_flag active events.
Proof.
  induction events as [|e events IH] using rev_ind.
  - destruct active; split; reflexivity.
  - rewrite run_snoc. unfold last_flag in *. rewrite fold_left_app. cbn [fold_left].
    destruct IH as [Hactive Hlistening].
    destruct e as [a|now|clientX clientY now].
    + cbn [step]. apply render_flags. congruence.
    + destruct (handlers_keep_flags (run (mount active now0) events) (KeyDown now) eq_refl)
        as [-> ->]. auto.
    + destruct (handlers_keep_flags (run (mount active now0) events)
                  (MouseMove clientX clientY now) eq_refl) as [-> ->]. auto.
Qed.

(** Input does nothing to a hook without listeners. *)
Lemma run_ignored (h : Hook) (inputs : list Event) :
  listening h = false -> forallb is_input inputs = true -> run h inputs = h.
Proof.
  intros Hoff. induction inputs as [|e inputs IH] using rev_ind; [reflexivity|].
  rewrite forallb_app. intros Hin. apply andb_true_iff in Hin as [Hin He].
  rewrite run_snoc, (IH Hin).
  destruct e; [discriminate He| |]; cbn [step]; rewrite Hoff; reflexivity.
Qed.

(** X8.  After any run, the two listeners are registered exactly when the
    flag of the last render (of the mount, when there was no later render)
    is active. *)
Theorem listeners_follow_flag (active : bool) (now0 : number) (events : list Event) :
  listening (run (mount active now0) events) = last_flag active events /\
  isActive (run (mount active now0) events) = last_flag active events.
Proof.
  destruct (run_flags active now0 events) as [Hactive Hlistening]. split; assumption.
Qed.

(** X9.  While the flag is off, keystrokes and pointer moves change
    nothing: not the published sample, not the timestamp, not a window. *)
Theorem inactive_hook_ignores_input
    (active : bool) (now0 : number) (events inputs : list Event) :
  last_flag active events = false ->
  forallb is_input inputs = true ->
  run (mount active now0) (events ++ inputs) = run (mount active now0) events.
Proof.
  intros Hoff Hin.
  destruct (run_flags active now0 events) as [_ Hlistening].
  unfold run at 1. rewrite fold_left_app. fold (run (mount active now0) events).
  apply (run_ignored (run (mount active now0) events) inputs); [|exact Hin].
  rewrite Hlistening. exact Hoff.
Qed.

Lemma render_off_on (h : Hook) :
  isActive h = true -> listening h = true -> render true (render false h) = h.
Proof.
  destruct h as [d t ks ps a l]. cbn. intros -> ->. reflexivity.
Qed.

(** X10.  Switching monitoring off and on again gives back the very state
    it was switched off in, whatever was typed or moved in between. *)
Theorem off_and_on_restores
    (active : bool) (now0 : number) (events inputs : list Event) :
  last_flag active events = true ->
  forallb is_input inputs = true ->
  run (mount active now0) (events ++ Render false :: inputs ++ [Render true]) =
  run (mount active now0) events.
Proof.
  intros Hon Hin.
  destruct (run_flags active now0 events) as [Hactive Hlistening].
  rewrite Hon in Hactive, Hlistening.
  set (h := run (mount active now0) events) in *.
  replace (run (mount active now0) (events ++ Render false :: inputs ++ [Render true]))
    with (step (run (step h (Render false)) inputs) (Render true)).
  - rewrite run_ignored; [apply render_off_on; assumption | | exact Hin].
    cbn [step]. apply render_flags. congruence.
  - unfold h, run. rewrite fold_left_app. cbn [fold_left]. rewrite fold_left_app.
    reflexivity.
Qed.

Lemma gaps_skipn (k : nat) (times : list number) :
  gaps (skipn k times) = skipn k (gaps times).
Proof.
  revert times. induction k as [|k IH]; intros times; [reflexivity|].
  destruct times as [|t0 rest]; [reflexivity|].
  destruct rest as [|t1 rest]; [destruct k; reflexivity|].
  change (gaps (t0 :: t1 :: rest)) with ((t1 - t0) :: gaps (t1 :: rest)).
  cbn [skipn]. apply (IH (t1 :: rest)).
Qed.

Lemma recent_gaps (times : list number) :
  most_recent 10 (gaps times) = gaps (most_recent 11 times).
Proof.
  unfold most_recent. rewrite gaps_skipn, gaps_length. f_equal. lia.
Qed.

(** X11.  The typing speed remembers eleven keystrokes: the window is the
    gaps of the most recent eleven timestamps, so two runs that agree on
    those (whatever came before, and whatever the pointer did) publish the
    same typing speed. *)
Theorem typing_speed_forgets
    (now1 now2 : number) (events1 events2 : list Event) :
  forallb is_input events1 = true ->
  forallb is_input events2 = true ->
  forallb is_set (key_times events1) = true ->
  forallb is_set (key_times events2) = true ->
  most_recent 11 (key_times events1) = most_recent 11 (key_times events2) ->
  keyIntervals (run (mount true now1) events1) = gaps (most_recent 11 (key_times events1)) /\
  keyIntervals (run (mount true now1) events1) = keyIntervals (run (mount true now2) events2) /\
  typingSpeed (data (run (mount true now1) events1)) =
  typingSpeed (data (run (mount true now2) events2)).
Proof.
  intros Hin1 Hin2 Hset1 Hset2 Hrecent.
  destruct (run_keys now1 events1 Hin1 Hset1) as (_ & Hwin1 & Hspeed1).
  destruct (run_keys now2 events2 Hin2 Hset2) as (_ & Hwin2 & Hspeed2).
  cbv zeta in *. rewrite recent_gaps in Hwin1, Hwin2.
  assert (Hsame : keyIntervals (run (mount true now1) events1) =
                  keyIntervals (run (mount true now2) events2))
    by (rewrite Hwin1, Hwin2, Hrecent; reflexivity).
  split; [exact Hwin1|]. split; [exact Hsame|].
  rewrite Hspeed1, Hspeed2, Hsame. reflexivity.
Qed.

Lemma step_in_sync (h : Hook) (e : Event) :
  typingSpeed (data h) = speed_of (keyIntervals h) ->
  mouseJitter (data h) = jitter_of (mousePositions h) ->
  typingSpeed (data (step h e)) = speed_of (keyIntervals (step h e)) /\
  mouseJitter (data (step h e)) = jitter_of (mousePositions (step h e)).
Proof.
  intros Hspeed Hjitter. destruct e as [a|now|clientX clientY now]; cbn [step].
  - destruct (render_refs a h) as (-> & _ & -> & ->). split; assumption.
  - destruct (listening h); [|split; assumption].
    split; [apply handleKeyDown_typingSpeed | exact Hjitter].
  - destruct (listening h); [|split; assumption].
    split; [exact Hspeed | apply handleMouseMove_mouseJitter].
Qed.

(** X12.  The published sample is never stale: after any run, with
    renders, deactivations and reactivations in it, the typing speed is the
    mean of the key-interval window as it stands (0 when it is empty) and
    the jitter is that of the pointer window as it stands. *)
Theorem sample_in_sync (active : bool) (now0 : number) (events : list Event) :
  typingSpeed (data (run (mount active now0) events)) =
    speed_of (keyIntervals (run (mount active now0) events)) /\
  mouseJitter (data (run (mount active now0) events)) =
    jitter_of (mousePositions (run (mount active now0) events)).
Proof.
  induction events as [|e events IH] using rev_ind.
  - destruct active; split; reflexivity.
  - rewrite run_snoc. apply step_in_sync; apply IH.
Qed.

(** The events that reach a handler: those that arrive while the flag of
    the last render is active. *)
Fixpoint handled (flag : bool) (events : list Event) : list Event :=
  match events with
  | [] => []
  | Render a :: rest => handled a rest
  | e :: rest => if flag then e :: handled flag rest else handled flag rest
  end.

(** Two hooks with the same published sample and the same refs. *)
Definition same_sample (h1 h2 : Hook) : Prop :=
  data h1 = data h2 /\
  lastKeyTime h1 = lastKeyTime h2 /\
  keyIntervals h1 = keyIntervals h2 /\
  mousePositions h1 = mousePositions h2.

Lemma handlers_same_sample (h1 h2 : Hook) (e : Event) :
  same_sample h1 h2 -> listening h1 = true -> listening h2 = true ->
  same_sample (step h1 e) (step h2 e) \/ is_input e = false.
Proof.
  intros (Hdata & Hlast & Hkeys & Hpointer) Hl1 Hl2.
  destruct e as [a|now|clientX clientY now]; [right; reflexivity| |]; left;
    cbn [step]; rewrite Hl1, Hl2;
    unfold same_sample, handleKeyDown, handleMouseMove;
    cbn [data lastKeyTime keyIntervals mousePositions];
    rewrite Hdata, Hlast, Hkeys, Hpointer; repeat split.
Qed.

Lemma run_handled (events : list Event) (h1 h2 : Hook) :
  same_sample h1 h2 ->
  listening h1 = isActive h1 ->
  listening h2 = true ->
  same_sample (run h1 events) (run h2 (handled (isActive h1) events)).
Proof.
  revert h1 h2. induction events as [|e events IH]; intros h1 h2 Hsame Hsync Hl2;
    [exact Hsame|].
  change (run h1 (e :: events)) with (run (step h1 e) events).
  destruct (is_input e) eqn:Hinput.
  - destruct (handlers_keep_flags h1 e Hinput) as [Hflag Hlistening].
    destruct (handlers_keep_flags h2 e Hinput) as [_ Hlistening2].
    assert (Hnext : forall h2',
               same_sample (step h1 e) h2' -> listening h2' = true ->
               same_sample (run (step h1 e) events) (run h2' (handled (isActive h1) events))).
    { intros h2' Hsame' Hl2'. rewrite <- Hflag. apply IH; congruence. }
    destruct (isActive h1) eqn:Hactive.
    + replace (handled true (e :: events)) with (e :: handled true events)
        by (destruct e; [discriminate Hinput | reflexivity | reflexivity]).
      change (run h2 (e :: handled true events))
        with (run (step h2 e) (handled true events)).
      apply Hnext; [|congruence].
      destruct (handlers_same_sample h1 h2 e Hsame) as [H|H]; congruence.
    + replace (handled false (e :: events)) with (handled false events)
        by (destruct e; [discriminate Hinput | reflexivity | reflexivity]).
      apply Hnext; [|exact Hl2].
      replace (step h1 e) with h1; [exact Hsame|].
      destruct e; [discriminate Hinput| |]; cbn [step]; rewrite Hsync; reflexivity.
  - destruct e as [a|now|clientX clientY now]; try discriminate Hinput.
    cbn [handled step].
    destruct (render_flags a h1 Hsync) as [Hflag Hlistening].
    pose proof (IH (render a h1) h2) as Hnext. rewrite Hflag in Hnext.
    apply Hnext; [|congruence|exact Hl2].
    destruct Hsame as (Hdata & Hlast & Hkeys & Hpointer). unfold same_sample.
    destruct (render_refs a h1) as (-> & -> & -> & ->). repeat split; assumption.
Qed.

(** X14.  Renders only gate the events.  The sample and the refs after
    any run are those of a hook that was mounted active and received, with
    no render at all, just the events that arrived while the flag was
    active: nothing else of the flag's history is kept. *)
Theorem renders_only_gate (active : bool) (now0 : number) (events : list Event) :
  same_sample (run (mount active now0) events)
              (run (mount true now0) (handled active events)) /\
  forallb is_input (handled active events) = true.
Proof.
  split.
  - replace active with (isActive (mount active now0)) at 2 by (destruct active; reflexivity).
    apply run_handled; try reflexivity; destruct active; repeat split.
  - revert active. induction events as [|e events IH]; intros active; [reflexivity|].
    destruct e; cbn [handled]; [apply IH| |]; destruct active; cbn; apply IH.
Qed.

End MonitorFacts.

(* ================================================================== *)
(** * src/App.tsx: the client end of the socket                        *)
(* ================================================================== *)

Module App.
Import Server Monitor.
Local Open Scope float_scope.

(** [WebSocket.readyState]. *)
Inductive ReadyState := CONNECTING | OPEN | CLOSING | CLOSED.

(** The two pieces of state the socket writes (lines 61-62); a setter
    stores whatever value it is given. *)
Record Risk := { riskScore : JSValue; riskReason : JSValue }.

(** Lines 61-62: the initial state. *)
Definition initial : Risk :=
  {| riskScore := JNum 0; riskReason := JStr "System Initialized" |}.

(** What the receiver parses out of [JSON.stringify(v)], for the plain
    data the two ends send: a finite number is read back as it was (a
    negative zero as zero), NaN and the infinities are written as [null],
    an [undefined] property is left out and an [undefined] array element
    is written as [null]. *)
Fixpoint wire (v : JSValue) : JSValue :=
  match v with
  | JNum n => if is_finite n then (if n =? 0 then JNum 0 else JNum n) else JNull
  | JArr elems =>
      JArr (map (fun x => match x with JUndefined => JNull | _ => wire x end) elems)
  | JObj props =>
      JObj ((fix wire_props (l : list (string * JSValue)) : list (string * JSValue) :=
               match l with
               | [] => []
               | (k, x) :: rest =>
                   match x with
                   | JUndefined => wire_props rest
                   | _ => (k, wire x) :: wire_props rest
                   end
               end) props)
  | _ => v
  end.

(** Lines 74-80: [socket.onmessage]; the result is the state after the
    two setters, and a throw leaves the state as it was. *)
Definition onmessage (event_data : Message) (state : Risk) : Completion Risk :=
  (data <- JSON_parse event_data ;;
   type <- Get data "type" ;;
   if strict_eq_string type "RISK_UPDATE" then
     payload <- Get data "payload" ;;
     score <- Get payload "riskScore" ;;
     payload <- Get data "payload" ;;
     reason <- Get payload "reason" ;;
     Normal {| riskScore := score; riskReason := reason |}
   else Normal state)%completion.

(** Lines 85-96, the effect on [[behavior, showLogin]]: the frame it
    sends, as the server will parse it, if it sends one; [socket] is
    [socketRef.current?.readyState]. *)
Definition report_effect
    (showLogin : bool) (socket : option ReadyState) (behavior : BehaviorData) : option Message :=
  if showLogin && match socket with Some OPEN => true | _ => false end
  then Some (JSON (wire (JObj [("type", JStr "BEHAVIOR_REPORT");
                               ("payload",
                                JObj [("typingSpeed", JNum (typingSpeed behavior));
                                      ("mouseJitter", JNum (mouseJitter behavior));
                                      ("sessionToken", JStr "mock-token-123")])])))
  else None.

End App.

(** The object [server.ts] stringifies on lines 31-34, as the client
    parses it. *)
Definition reply_frame (m : Server.Outbound) : Server.Message :=
  match m with
  | Server.RISK_UPDATE update =>
      Server.JSON
        (App.wire (JObj [("type", JStr "RISK_UPDATE");
                         ("payload", JObj [("riskScore", JNum (Server.riskScore update));
                                           ("reason", JStr (Server.reason update))])]))
  end.

Module AppFacts.
Import Server ServerProperties ServerFacts Monitor App.
Local Open Scope float_scope.

(** Comparing against one zero is comparing against the other. *)
Lemma ltb_zero (c n : number) : (n =? 0) = true -> (c <? n) = (c <? 0).
Proof.
  intros H. destruct (eqb_zero_inv n H) as [sign Hn].
  rewrite !FloatAxioms.ltb_spec, Hn. change (Prim2SF 0) with (S754_zero false).
  destruct (Prim2SF c), sign; reflexivity.
Qed.

Section Engine.

Variable StringToNumber : string -> number.
Variable NumberToString : number -> string.

Local Abbreviation gt := (gt StringToNumber NumberToString).
Local Abbreviation on_message := (on_message StringToNumber NumberToString).

(** A metric as the server compares it after the trip over the socket. *)
Lemma gt_wire (n c : number) :
  gt (wire (JNum n)) c = Normal (is_finite n && (c <? n)) \/
  (is_finite n = false /\ gt (wire (JNum n)) c = Normal (c <? 0)).
Proof.
  cbn [wire]. destruct (is_finite n); [left | right; split; reflexivity].
  destruct (n =? 0) eqn:Hzero; cbn [andb].
  - rewrite (ltb_zero c n Hzero). reflexivity.
  - reflexivity.
Qed.

(** X13.  From the sample to the screen.  While the login form is shown
    and the socket is open, the effect sends the published sample; the
    server answers it by the rule, where a metric that is not finite
    arrives as [null] and counts as 0; and the client then holds that
    score and reason: the score exceeds 50, which turns the header red, and
    the reason is "Anomalous interaction detected", exactly when both
    metrics are finite and above their thresholds. *)
Theorem sample_to_screen
    (now : number) (behavior : BehaviorData) (w : World) (state : Risk) :
  let fast := is_finite (typingSpeed behavior) && (500 <? typingSpeed behavior) in
  let erratic := is_finite (mouseJitter behavior) && (0.8 <? mouseJitter behavior) in
  exists frame,
    report_effect true (Some OPEN) behavior = Some frame /\
    on_message now frame w =
      Normal (tt, after_send w (RISK_UPDATE (risk_rule fast erratic))) /\
    onmessage (reply_frame (RISK_UPDATE (risk_rule fast erratic))) state =
      Normal {| riskScore := JNum (Server.riskScore (risk_rule fast erratic));
                riskReason := JStr (if fast && erratic
                                    then "Anomalous interaction detected"
                                    else "Normal") |} /\
    gt (JNum (Server.riskScore (risk_rule fast erratic))) 50 = Normal (fast && erratic).
Proof.
  intros fast erratic. eexists. split; [reflexivity|]. split; [|split].
  - apply (report_answer _ _ now _
             (wire (JObj [("typingSpeed", JNum (typingSpeed behavior));
                          ("mouseJitter", JNum (mouseJitter behavior));
                          ("sessionToken", JStr "mock-token-123")]))
             (wire (JNum (typingSpeed behavior))) (wire (JNum (mouseJitter behavior))));
      try reflexivity.
    + destruct (gt_wire (typingSpeed behavior) 500) as [H | [Hinf H]]; rewrite H;
        [reflexivity | subst fast; rewrite Hinf; reflexivity].
    + destruct (gt_wire (mouseJitter behavior) 0.8) as [H | [Hinf H]]; rewrite H;
        [reflexivity | subst erratic; rewrite Hinf; reflexivity].
  - destruct fast, erratic; reflexivity.
  - destruct fast, erratic; reflexivity.
Qed.

End Engine.

End AppFacts.

(* ================================================================== *)
(** * Sample runs of the further properties                            *)
(* ================================================================== *)

Module Samples.
Import Server ServerProperties ServerFacts Monitor MonitorProperties MonitorFacts.
Local Open Scope float_scope.

(** A session init whose token is an (empty) array. *)
Definition init_with_array : JSValue :=
  JObj [("type", JStr "SESSION_INIT"); ("payload", JObj [("token", JArr [])])].

(** A session init without a token. *)
Definition init_without_token : JSValue :=
  JObj [("type", JStr "SESSION_INIT"); ("payload", JObj [])].

(** A report whose jitter is [true], and the same report with jitter 1. *)
Definition report_with_true : JSValue :=
  JObj [("type", JStr "BEHAVIOR_REPORT");
        ("payload", JObj [("typingSpeed", JNum 120); ("mouseJitter", JBool true)])].

Definition report_with_one : JSValue :=
  JObj [("type", JStr "BEHAVIOR_REPORT");
        ("payload", JObj [("typingSpeed", JNum 120); ("mouseJitter", JNum 1)])].

(** The heartbeat is not among the frames that throw. *)
Lemma handler_throws_exactly_witness :
  exists w', handle 1700000000000 (JSON heartbeat) start = Normal (tt, w').
Proof.
  apply (proj2 (handler_throws_exactly sample_StringToNumber sample_NumberToString
                  1700000000000 (JSON heartbeat) start)).
  reflexivity.
Defined.

(** One session init: the third alternative. *)
Lemma at_most_one_effect_witness :
  one_session = start \/
  (exists update, one_session = after_send start (RISK_UPDATE update)) \/
  (exists token,
      one_session =
      {| sessions := Map_set (sessions start) token (record_at 1700000000000);
         sent := sent start |}).
Proof.
  apply (at_most_one_effect sample_StringToNumber sample_NumberToString
           1700000000000 (SessionInit "mock-token-123") start one_session).
  reflexivity.
Defined.

(** The sample payload: fast, not erratic, hence "Normal". *)
Lemma anomaly_needs_both_signals_witness :
  exists fast erratic,
    gt sample_StringToNumber sample_NumberToString
      (field sample_payload "typingSpeed") 500 = Normal fast /\
    gt sample_StringToNumber sample_NumberToString
      (field sample_payload "mouseJitter") 0.8 = Normal erratic /\
    {| riskScore := 30; reason := "Normal" |} = risk_rule fast erratic /\
    reason {| riskScore := 30; reason := "Normal" |} =
      if fast && erratic then "Anomalous interaction detected" else "Normal".
Proof.
  apply (anomaly_needs_both_signals sample_StringToNumber sample_NumberToString
           sample_payload {| riskScore := 30; reason := "Normal" |}).
  reflexivity.
Defined.

(** Jitter [true] is answered as jitter 1. *)
Lemma field_scored_as_number_witness :
  handle 1700000000000 (JSON report_with_true) start =
  handle 1700000000000 (JSON report_with_one) start.
Proof.
  apply (proj1 (proj2 (field_scored_as_number sample_StringToNumber sample_NumberToString))
           1700000000000 report_with_true report_with_one
           (JObj [("typingSpeed", JNum 120); ("mouseJitter", JBool true)])
           (JObj [("typingSpeed", JNum 120); ("mouseJitter", JNum 1)])
           (JBool true) 1 start);
    reflexivity.
Defined.

(** An init and a report served on a server that holds one session. *)
Lemma sessions_only_grow_witness :
  (forall key,
      Map_get (sessions one_session) key <> None ->
      Map_get [(JStr "mock-token-123", record_at 1700000000000);
               (JStr "another-token", record_at 1700000001000)] key <> None) /\
  (List.length (sessions one_session) <= 2 <= List.length (sessions one_session) + 2)%nat /\
  exists more,
    [RISK_UPDATE {| riskScore := 30; reason := "Normal" |}] = (sent one_session ++ more)%list /\
    (List.length more <= 2)%nat.
Proof.
  apply (sessions_only_grow sample_StringToNumber sample_NumberToString
           [(1700000001000, SessionInit "another-token");
            (1700000002000, BehaviorReport 612.5 0.31 "another-token")]
           one_session
           {| sessions := [(JStr "mock-token-123", record_at 1700000000000);
                           (JStr "another-token", record_at 1700000001000)];
              sent := [RISK_UPDATE {| riskScore := 30; reason := "Normal" |}] |}).
  reflexivity.
Defined.

(** The array token is appended behind the stored session. *)
Lemma object_token_always_new_witness :
  handle 1700000003000 (JSON init_with_array) one_session =
  Normal (tt, {| sessions :=
                   (sessions one_session ++ [(JArr [], record_at 1700000003000)])%list;
                 sent := sent one_session |}).
Proof.
  apply (object_token_always_new sample_StringToNumber sample_NumberToString
           1700000003000 init_with_array one_session);
    reflexivity.
Defined.

(** An init without a token is stored under [undefined]. *)
Lemma init_then_lookup_witness :
  exists w',
    handle 1700000003000 (JSON init_without_token) one_session = Normal (tt, w') /\
    Map_get (sessions w') JUndefined = Some (record_at 1700000003000) /\
    sent w' = sent one_session.
Proof.
  apply (init_then_lookup sample_StringToNumber sample_NumberToString
           1700000003000 init_without_token one_session);
    reflexivity.
Defined.

(** 612.5 and 0.31 against 700 and 0.95. *)
Lemma score_monotone_witness :
  exists update update',
    handle 1700000000000 (BehaviorReport 612.5 0.31 "a") start =
      Normal (tt, after_send start (RISK_UPDATE update)) /\
    handle 1700000000000 (BehaviorReport 700 0.95 "b") start =
      Normal (tt, after_send start (RISK_UPDATE update')) /\
    (riskScore update <=? riskScore update') = true /\
    (reason update = "Anomalous interaction detected" ->
     reason update' = "Anomalous interaction detected").
Proof.
  apply (score_monotone sample_StringToNumber sample_NumberToString
           1700000000000 612.5 700 0.31 0.95 "a" "b" start);
    reflexivity.
Defined.

(** After the first session, input changes nothing. *)
Lemma inactive_hook_ignores_input_witness :
  run (mount true 1699999999000)
      (first_session ++ [KeyDown 1700000004000; MouseMove 9 9 1700000004100]) =
  run (mount true 1699999999000) first_session.
Proof.
  apply (inactive_hook_ignores_input true 1699999999000 first_session
           [KeyDown 1700000004000; MouseMove 9 9 1700000004100]);
    reflexivity.
Defined.

(** Off and on again after the eleven keystrokes. *)
Lemma off_and_on_restores_witness :
  run (mount true 1699999999000)
      (eleven_keystrokes
       ++ Render false :: [KeyDown 1700000004000; MouseMove 9 9 1700000004100]
       ++ [Render true]) =
  run (mount true 1699999999000) eleven_keystrokes.
Proof.
  apply (off_and_on_restores true 1699999999000 eleven_keystrokes
           [KeyDown 1700000004000; MouseMove 9 9 1700000004100]);
    reflexivity.
Defined.

(** The eleven keystrokes, with and without an older twelfth before them. *)
Lemma typing_speed_forgets_witness :
  keyIntervals (run (mount true 1699999999000) (KeyDown 1699999999500 :: eleven_keystrokes)) =
    gaps (most_recent 11 (key_times (KeyDown 1699999999500 :: eleven_keystrokes))) /\
  keyIntervals (run (mount true 1699999999000) (KeyDown 1699999999500 :: eleven_keystrokes)) =
    keyIntervals (run (mount true 1699999999900) eleven_keystrokes) /\
  typingSpeed (data (run (mount true 1699999999000)
                       (KeyDown 1699999999500 :: eleven_keystrokes))) =
  typingSpeed (data (run (mount true 1699999999900) eleven_keystrokes)).
Proof.
  apply (typing_speed_forgets 1699999999000 1699999999900
           (KeyDown 1699999999500 :: eleven_keystrokes) eleven_keystrokes);
    reflexivity.
Defined.

End Samples.
